(** * TrenchBroom scene-graph geometry core: BrushNode and EntityNode

    A shallow embedding of [common/src/Model/BrushNode.cpp] and of
    [EntityNode.cpp], with the properties of the design document proved
    about it.

    Conventions.
    - [FloatType] is a C++ [double]; it is embedded as a binary64 primitive
      float, so that the not-a-number sentinel of the geometry kernels is
      the real one ([vm::is_nan] is [PrimFloat.is_nan]).
    - The selected-face counter and the row and column counts of a patch
      grid are [size_t] values, embedded in [N]; increments wrap modulo
      [2^64] and [0 - 1u] is [2^64 - 1].  Positions in the face list of a
      brush are [nat].
    - Geometry kernels whose bodies live in other translation units
      (face/ray intersection, point-in-brush, ray/box intersection,
      matrix inversion ...) are section variables: every theorem holds
      for all of them.  [Sample] gives one choice of them, for
      axis-aligned geometry, on which the functions are run.
    - Calls to the ray kernels are logged in a call trace, which is how
      "is tested first" and "is not tested at all" are stated.
    - A function that updates a node returns the updated node; a function
      that is undefined on some arguments (a face index out of range)
      returns an [option]. *)

From Stdlib Require Import ZArith NArith List Bool Lia Floats Permutation.
From Stdlib Require Ascii String.
Import ListNotations.

(* ================================================================== *)
(** * Vector math *)
(* ================================================================== *)

Module vm.

(** [FloatType.h]: [using FloatType = double]. *)
Definition FloatType : Set := float.

Definition is_nan (f : FloatType) : bool := PrimFloat.is_nan f.

Record vec3 : Set := mkVec3 { x : FloatType; y : FloatType; z : FloatType }.

Definition vec3_fill (c : FloatType) : vec3 := mkVec3 c c c.

Definition vec3_add (a b : vec3) : vec3 :=
  mkVec3 (x a + x b)%float (y a + y b)%float (z a + z b)%float.

Definition vec3_sub (a b : vec3) : vec3 :=
  mkVec3 (x a - x b)%float (y a - y b)%float (z a - z b)%float.

(** [vm::ray3{origin, direction}] *)
Record ray3 : Set := mkRay3 { origin : vec3; direction : vec3 }.

(** [vm::bbox3]: an axis-aligned box given by its two extreme corners. *)
Record bbox3 : Set := mkBBox3 { min : vec3; max : vec3 }.

(** Modelled from the spec: the one-argument constructor [vm::bbox3{c}]
    (vecmath's [bbox.h] is not among the sources).  The design document
    gives the default-bounds constant [vm::bbox3{8.0}] as the box of size
    16 centred at the coordinate origin, from [-8,-8,-8] to [8,8,8]: the
    constructor negates its argument for the minimum corner. *)
Definition bbox3_minmax (c : FloatType) : bbox3 :=
  mkBBox3 (vec3_fill (- c)%float) (vec3_fill c).

(** Modelled from the spec: [bbox3::translate(delta)] moves both corners
    by [delta] (vecmath's [bbox.h] is not among the sources). *)
Definition bbox3_translate (b : bbox3) (delta : vec3) : bbox3 :=
  mkBBox3 (vec3_add (min b) delta) (vec3_add (max b) delta).

(** A box is valid when its minimum corner is componentwise below its
    maximum corner; in particular no coordinate is a NaN. *)
Definition bbox3_valid (b : bbox3) : bool :=
  (x (min b) <=? x (max b))%float
  && (y (min b) <=? y (max b))%float
  && (z (min b) <=? z (max b))%float.

(** Modelled from the spec: the "containment bounds-test" of two boxes
    (vecmath's [bbox.h] is not among the sources): [b] does not stick out
    of [a] on any axis. *)
Definition bbox3_contains (a b : bbox3) : bool :=
  negb (x (min b) <? x (min a))%float && negb (x (max a) <? x (max b))%float
  && negb (y (min b) <? y (min a))%float && negb (y (max a) <? y (max b))%float
  && negb (z (min b) <? z (min a))%float && negb (z (max a) <? z (max b))%float.

(** Modelled from the spec: the "bounds-overlap" test of two boxes
    (vecmath's [bbox.h] is not among the sources): on no axis does [b]
    end before [a] starts or start after [a] ends. *)
Definition bbox3_intersects (a b : bbox3) : bool :=
  negb (x (max b) <? x (min a))%float && negb (x (max a) <? x (min b))%float
  && negb (y (max b) <? y (min a))%float && negb (y (max a) <? y (min b))%float
  && negb (z (max b) <? z (min a))%float && negb (z (max a) <? z (min b))%float.

(** The eight corners of a box, [bbox3::vertices()]. *)
Definition bbox3_vertices (b : bbox3) : list vec3 :=
  let lo := min b in
  let hi := max b in
  [ mkVec3 (x lo) (y lo) (z lo); mkVec3 (x lo) (y lo) (z hi);
    mkVec3 (x lo) (y hi) (z lo); mkVec3 (x lo) (y hi) (z hi);
    mkVec3 (x hi) (y lo) (z lo); mkVec3 (x hi) (y lo) (z hi);
    mkVec3 (x hi) (y hi) (z lo); mkVec3 (x hi) (y hi) (z hi) ].

End vm.

(* ================================================================== *)
(** * Call traces *)
(* ================================================================== *)

(** The ray kernels are pure, but three properties of the picking code are
    about which kernels are called and in which order.  The picking
    functions therefore run in a writer monad that logs those calls. *)

Inductive Call : Set :=
| CallRayBBox                    (* vm::intersect_ray_bbox *)
| CallFaceRay (faceIndex : nat)  (* m_brush.face(i).intersectWithRay *)
| CallInvert                     (* vm::invert *)
| CallModelRay.                  (* m_entity.model()->intersect *)

Definition Traced (A : Type) : Type := (A * list Call)%type.

Definition ret {A} (a : A) : Traced A := (a, []).

Definition bind {A B} (m : Traced A) (k : A -> Traced B) : Traced B :=
  let (a, t1) := m in
  let (b, t2) := k a in
  (b, t1 ++ t2).

(** [call c v]: the kernel call [c] was made and returned [v]. *)
Definition call {A} (c : Call) (v : A) : Traced A := (v, [c]).

Definition value {A} (m : Traced A) : A := fst m.
Definition trace {A} (m : Traced A) : list Call := snd m.

Declare Scope traced_scope.
Delimit Scope traced_scope with traced.
Notation "x <- c1 ;; c2" := (bind c1 (fun x => c2))
  (at level 61, c1 at next level, right associativity) : traced_scope.

(** How many face/ray tests a trace holds: the "face-intersection call
    counter" of the design document. *)
Definition isFaceRay (c : Call) : bool :=
  match c with CallFaceRay _ => true | _ => false end.

Definition faceRayCalls (t : list Call) : nat := length (filter isFaceRay t).

Definition isModelRay (c : Call) : bool :=
  match c with CallModelRay => true | _ => false end.

Definition modelRayCalls (t : list Call) : nat := length (filter isModelRay t).

(* ================================================================== *)
(** * [size_t] *)
(* ================================================================== *)

Module size_t.

Definition modulus : N := 2 ^ 64.

(** [++n] *)
Definition incr (n : N) : N := ((n + 1) mod modulus)%N.

(** [--n] and [n - 1u]: unsigned, so [0 - 1u] is [2^64 - 1]. *)
Definition decr (n : N) : N := if (n =? 0)%N then (modulus - 1)%N else (n - 1)%N.

(** The values [0, 1, ..., n-1] a loop [for (i = 0u; i < n; ++i)] runs
    through. *)
Definition range (n : N) : list N := map N.of_nat (seq 0 (N.to_nat n)).

End size_t.

(* ================================================================== *)
(** * Data model *)
(* ================================================================== *)

(** ** Brushes *)

(** A face of a brush.  Of the attributes the design document lists (a
    plane, a polygonal boundary, a selection flag, a texture reference, a
    tag mask) the polygon and the selection flag are kept; [BrushFace.cpp]
    is not among the sources, and the face/ray kernel is a variable of the
    development. *)
Record BrushFace : Set := mkBrushFace {
  face_vertices : list vm.vec3;
  face_selected : bool          (* BrushFace::selected() *)
}.

(** Modelled from the spec: [BrushFace::select()] and
    [BrushFace::deselect()] ([BrushFace.cpp] is not among the sources) set
    and clear the selection flag of the face. *)
Definition BrushFace_select (f : BrushFace) : BrushFace :=
  mkBrushFace (face_vertices f) true.

Definition BrushFace_deselect (f : BrushFace) : BrushFace :=
  mkBrushFace (face_vertices f) false.

(** A convex solid: its faces in stored order and its derived bounding
    box. *)
Record Brush : Set := mkBrush {
  Brush_faces : list BrushFace;   (* Brush::faces() *)
  Brush_bounds : vm.bbox3         (* Brush::bounds() *)
}.

Definition Brush_faceCount (b : Brush) : nat := length (Brush_faces b).

(** [Brush::face(index)]: undefined outside of the stored faces. *)
Definition Brush_face (b : Brush) (index : nat) : option BrushFace :=
  nth_error (Brush_faces b) index.

(** The vertices of a solid are those of its faces. *)
Definition Brush_vertices (b : Brush) : list vm.vec3 :=
  flat_map face_vertices (Brush_faces b).

(** Replace the face stored at [index]; [None] outside of the list. *)
Fixpoint replace_face (faces : list BrushFace) (index : nat) (f : BrushFace)
  : option (list BrushFace) :=
  match faces, index with
  | [], _ => None
  | _ :: rest, O => Some (f :: rest)
  | g :: rest, S i => option_map (cons g) (replace_face rest i f)
  end.

(** How many faces of a list have their selection flag set. *)
Definition selectedCount (faces : list BrushFace) : nat :=
  length (filter face_selected faces).

(** ** Patch grids *)

Record GridPoint : Set := mkGridPoint { position : vm.vec3 }.

(** [struct PatchGrid] *)
Record PatchGrid : Set := mkPatchGrid {
  pointRowCount : N;
  pointColumnCount : N;
  points : list GridPoint;
  bounds : vm.bbox3
}.

Record PatchNode : Set := mkPatchNode { grid : PatchGrid }.

(** ** Entities *)

(** 4x4 matrices, stored by columns. *)
Record vec4 : Set := mkVec4
  { v0 : vm.FloatType; v1 : vm.FloatType; v2 : vm.FloatType; v3 : vm.FloatType }.
Record mat4x4 : Set := mkMat4x4 { c0 : vec4; c1 : vec4; c2 : vec4; c3 : vec4 }.

(** [Assets::EntityModelFrame], the visual-model interface: its bounds and
    its ray intersection in model space.  The source narrows the ray to
    single precision for the model; single-precision values are kept as
    the binary64 values equal to them. *)
Record EntityModelFrame : Type := mkEntityModelFrame {
  frame_bounds : vm.bbox3;
  frame_intersect : vm.ray3 -> vm.FloatType
}.

(** [Assets::EntityDefinition] and the two classes that derive from it;
    [dynamic_cast<const Assets::PointEntityDefinition*>] succeeds on the
    first only. *)
Inductive EntityDefinition : Set :=
| PointEntityDefinition (definitionBounds : vm.bbox3)
| BrushEntityDefinition.

(** What [EntityNode] reads of and writes to its [Entity]. *)
Record Entity : Type := mkEntity {
  Entity_model : option EntityModelFrame;        (* model(), nullptr is None *)
  Entity_definition : option EntityDefinition;  (* definition(), nullptr is None *)
  Entity_origin : vm.vec3;                       (* origin() *)
  Entity_modelTransformation : mat4x4;           (* modelTransformation() *)
  Entity_pointEntity : bool                      (* pointEntity() *)
}.

(** Modelled from the spec: [Entity::setPointEntity] ([Entity.cpp] is not
    among the sources) records whether the entity is a point entity. *)
Definition Entity_setPointEntity (e : Entity) (pointEntity : bool) : Entity :=
  mkEntity (Entity_model e) (Entity_definition e) (Entity_origin e)
           (Entity_modelTransformation e) pointEntity.

(** [struct CachedBounds] *)
Record CachedBounds : Set := mkCachedBounds {
  modelBounds : vm.bbox3;
  logicalBounds : vm.bbox3;
  physicalBounds : vm.bbox3
}.

(** ** Nodes *)

Record BrushNode : Set := mkBrushNode {
  m_brush : Brush;
  m_selectedFaceCount : N
}.

(** An entity node over a type of child nodes: its entity, its children
    and its cached-bounds slot, a [std::optional<CachedBounds>].  There is
    no other field that says whether the bounds are up to date. *)
Record EntityNodeOf (Child : Type) : Type := mkEntityNode {
  m_entity : Entity;
  m_children : list Child;
  m_cachedBounds : option CachedBounds
}.

Arguments mkEntityNode {Child} _ _ _.
Arguments m_entity {Child} _.
Arguments m_children {Child} _.
Arguments m_cachedBounds {Child} _.

(** The closed class hierarchy under [Node]. *)
#[local] Unset Elimination Schemes.
Inductive Node : Type :=
| NWorld (children : list Node)
| NLayer (children : list Node)
| NGroup (children : list Node)
| NEntity (entity : EntityNodeOf Node)
| NBrush (brush : BrushNode)
| NPatch (patch : PatchNode).
#[local] Set Elimination Schemes.

Definition EntityNode : Type := EntityNodeOf Node.

(** [Model::EditorContext]: the visibility predicate of the editing
    context. *)
Record EditorContext : Type := mkEditorContext { visible : Node -> bool }.

(** ** Pick results *)

Inductive HitType : Set := BrushHitType | EntityHitType.

Inductive HitTarget : Type :=
| FaceHandle (node : BrushNode) (faceIndex : nat)   (* BrushFaceHandle(this, i) *)
| EntityTarget (node : EntityNode).

Record Hit : Type := mkHit {
  hit_type : HitType;
  hit_distance : vm.FloatType;
  hit_point : vm.vec3;
  hit_target : HitTarget
}.

Definition PickResult : Type := list Hit.

(** Modelled from the spec: [PickResult::addHit] ([PickResult.cpp] is not
    among the sources) appends a hit record to the accumulator. *)
Definition addHit (pickResult : PickResult) (h : Hit) : PickResult :=
  pickResult ++ [h].

(* ================================================================== *)
(** * BrushNode: face selection *)
(* ================================================================== *)

(** [bool BrushNode::hasSelectedFaces() const] *)
Definition hasSelectedFaces (n : BrushNode) : bool :=
  (0 <? m_selectedFaceCount n)%N.

(** [void BrushNode::selectFace(size_t faceIndex)]: selects the face and
    increments the counter.  [None] when [faceIndex] is out of range, where
    [m_brush.face(faceIndex)] is undefined. *)
Definition selectFace (faceIndex : nat) (n : BrushNode) : option BrushNode :=
  match Brush_face (m_brush n) faceIndex with
  | None => None
  | Some face =>
      match replace_face (Brush_faces (m_brush n)) faceIndex
                         (BrushFace_select face) with
      | None => None
      | Some faces =>
          Some (mkBrushNode (mkBrush faces (Brush_bounds (m_brush n)))
                            (size_t.incr (m_selectedFaceCount n)))
      end
  end.

(** [void BrushNode::deselectFace(size_t faceIndex)] *)
Definition deselectFace (faceIndex : nat) (n : BrushNode) : option BrushNode :=
  match Brush_face (m_brush n) faceIndex with
  | None => None
  | Some face =>
      match replace_face (Brush_faces (m_brush n)) faceIndex
                         (BrushFace_deselect face) with
      | None => None
      | Some faces =>
          Some (mkBrushNode (mkBrush faces (Brush_bounds (m_brush n)))
                            (size_t.decr (m_selectedFaceCount n)))
      end
  end.

(** [void BrushNode::clearSelectedFaces()]: deselects every selected face
    and zeroes the counter. *)
Definition clearSelectedFaces (n : BrushNode) : BrushNode :=
  mkBrushNode
    (mkBrush
       (map (fun face => if face_selected face then BrushFace_deselect face
                         else face)
            (Brush_faces (m_brush n)))
       (Brush_bounds (m_brush n)))
    0%N.

(** [void BrushNode::updateSelectedFaceCount()]: the full rescan. *)
Definition updateSelectedFaceCount (n : BrushNode) : BrushNode :=
  mkBrushNode
    (m_brush n)
    (fold_left (fun count face => if face_selected face then size_t.incr count
                                  else count)
               (Brush_faces (m_brush n)) 0%N).

(** [Brush BrushNode::setBrush(Brush brush)]: swaps the brush in, rescans
    the selection counter and returns the old brush. *)
Definition setBrush (brush : Brush) (n : BrushNode) : Brush * BrushNode :=
  let old := m_brush n in
  (old, updateSelectedFaceCount (mkBrushNode brush (m_selectedFaceCount n))).

(** [BrushNode::BrushNode(Brush brush)]: moves the brush in and clears the
    face selection. *)
Definition newBrushNode (brush : Brush) : BrushNode :=
  clearSelectedFaces (mkBrushNode brush 0%N).

(** The calls of the face-selection interface. *)
Inductive SelectionCall : Set :=
| SelectFace (faceIndex : nat)
| DeselectFace (faceIndex : nat).

Definition selectionCall (c : SelectionCall) (n : BrushNode) : option BrushNode :=
  match c with
  | SelectFace i => selectFace i n
  | DeselectFace i => deselectFace i n
  end.

(** A sequence of calls, first call first; [None] as soon as an index is
    out of range. *)
Fixpoint selectionCalls (cs : list SelectionCall) (n : BrushNode)
  : option BrushNode :=
  match cs with
  | [] => Some n
  | c :: rest =>
      match selectionCall c n with
      | None => None
      | Some n' => selectionCalls rest n'
      end
  end.

(** All indices of a sequence of calls are in range for a brush with
    [faceCount] faces. *)
Definition indexOf (c : SelectionCall) : nat :=
  match c with SelectFace i | DeselectFace i => i end.

Definition inRange (faceCount : nat) (cs : list SelectionCall) : Prop :=
  Forall (fun c => indexOf c < faceCount) cs.

(** A call follows the selection protocol when it selects a face that is
    not selected or deselects a face that is. *)
Definition followsProtocol (c : SelectionCall) (n : BrushNode) : bool :=
  match c with
  | SelectFace i =>
      match Brush_face (m_brush n) i with
      | Some face => negb (face_selected face)
      | None => false
      end
  | DeselectFace i =>
      match Brush_face (m_brush n) i with
      | Some face => face_selected face
      | None => false
      end
  end.

Fixpoint allFollowProtocol (cs : list SelectionCall) (n : BrushNode) : bool :=
  match cs with
  | [] => true
  | c :: rest =>
      followsProtocol c n
      && match selectionCall c n with
         | Some n' => allFollowProtocol rest n'
         | None => false
         end
  end.

(** The counter agrees with the selection flags. *)
Definition counterInSync (n : BrushNode) : Prop :=
  m_selectedFaceCount n = N.of_nat (selectedCount (Brush_faces (m_brush n))).

(* ================================================================== *)
(** * A sample scene *)
(* ================================================================== *)

(** Concrete kernels for axis-aligned geometry and a few scene elements,
    on which the functions of the two nodes are run below. *)
Module Sample.

Local Open Scope float_scope.

(** [vm::nan<FloatType>()] *)
Definition nan : vm.FloatType := 0 / 0.

Definition p (a b c : vm.FloatType) : vm.vec3 := vm.mkVec3 a b c.

Definition coord (axis : nat) (v : vm.vec3) : vm.FloatType :=
  match axis with 0%nat => vm.x v | 1%nat => vm.y v | _ => vm.z v end.

Definition fmin (a b : vm.FloatType) : vm.FloatType := if a <? b then a else b.
Definition fmax (a b : vm.FloatType) : vm.FloatType := if a <? b then b else a.

Definition lowest (axis : nat) (vs : list vm.vec3) : vm.FloatType :=
  fold_left (fun m v => fmin m (coord axis v)) vs infinity.
Definition highest (axis : nat) (vs : list vm.vec3) : vm.FloatType :=
  fold_left (fun m v => fmax m (coord axis v)) vs neg_infinity.

(** All vertices agree on the coordinate of [axis]. *)
Definition flat (axis : nat) (vs : list vm.vec3) : bool :=
  lowest axis vs =? highest axis vs.

Definition inSpan (axis : nat) (vs : list vm.vec3) (v : vm.vec3) : bool :=
  (lowest axis vs <=? coord axis v) && (coord axis v <=? highest axis vs).

Definition point_at_distance (r : vm.ray3) (t : vm.FloatType) : vm.vec3 :=
  p (vm.x (vm.origin r) + t * vm.x (vm.direction r))
    (vm.y (vm.origin r) + t * vm.y (vm.direction r))
    (vm.z (vm.origin r) + t * vm.z (vm.direction r)).

(** The ray parameter at which a ray meets an axis-aligned rectangle that
    is flat on [axis], a NaN when it does not. *)
Definition rectangleHit (axis : nat) (vs : list vm.vec3) (r : vm.ray3)
  : vm.FloatType :=
  let t := (lowest axis vs - coord axis (vm.origin r))
           / coord axis (vm.direction r) in
  let hit := point_at_distance r t in
  if (0 <=? t)
     && forallb (fun a => Nat.eqb a axis || inSpan a vs hit) [0; 1; 2]%nat
  then t else nan.

Definition intersectWithRay (face : BrushFace) (r : vm.ray3) : vm.FloatType :=
  let vs := face_vertices face in
  if flat 0 vs then rectangleHit 0 vs r
  else if flat 1 vs then rectangleHit 1 vs r
  else if flat 2 vs then rectangleHit 2 vs r
  else nan.

Definition bbox3_containsPoint (b : vm.bbox3) (v : vm.vec3) : bool :=
  forallb (fun a => (coord a (vm.min b) <=? coord a v)
                    && (coord a v <=? coord a (vm.max b))) [0; 1; 2]%nat.

(** The six sides of a box, the side [x = max] first. *)
Definition sides (b : vm.bbox3) : list BrushFace :=
  let lo := vm.min b in
  let hi := vm.max b in
  let quad a b c d := mkBrushFace [a; b; c; d] false in
  [ quad (p (vm.x hi) (vm.y lo) (vm.z lo)) (p (vm.x hi) (vm.y hi) (vm.z lo))
         (p (vm.x hi) (vm.y hi) (vm.z hi)) (p (vm.x hi) (vm.y lo) (vm.z hi));
    quad (p (vm.x lo) (vm.y lo) (vm.z lo)) (p (vm.x lo) (vm.y hi) (vm.z lo))
         (p (vm.x lo) (vm.y hi) (vm.z hi)) (p (vm.x lo) (vm.y lo) (vm.z hi));
    quad (p (vm.x lo) (vm.y hi) (vm.z lo)) (p (vm.x hi) (vm.y hi) (vm.z lo))
         (p (vm.x hi) (vm.y hi) (vm.z hi)) (p (vm.x lo) (vm.y hi) (vm.z hi));
    quad (p (vm.x lo) (vm.y lo) (vm.z lo)) (p (vm.x hi) (vm.y lo) (vm.z lo))
         (p (vm.x hi) (vm.y lo) (vm.z hi)) (p (vm.x lo) (vm.y lo) (vm.z hi));
    quad (p (vm.x lo) (vm.y lo) (vm.z hi)) (p (vm.x hi) (vm.y lo) (vm.z hi))
         (p (vm.x hi) (vm.y hi) (vm.z hi)) (p (vm.x lo) (vm.y hi) (vm.z hi));
    quad (p (vm.x lo) (vm.y lo) (vm.z lo)) (p (vm.x hi) (vm.y lo) (vm.z lo))
         (p (vm.x hi) (vm.y hi) (vm.z lo)) (p (vm.x lo) (vm.y hi) (vm.z lo)) ].

(** The nearest hit of a ray on the sides of a box, zero from inside. *)
Definition intersect_ray_bbox (r : vm.ray3) (b : vm.bbox3) : vm.FloatType :=
  if bbox3_containsPoint b (vm.origin r) then 0
  else fold_left
         (fun best side =>
            let t := intersectWithRay side r in
            if vm.is_nan t then best
            else if vm.is_nan best then t else fmin best t)
         (sides b) nan.

(** A box-shaped brush and its point test. *)
Definition box (b : vm.bbox3) : Brush := mkBrush (sides b) b.

Definition containsPoint (brush : Brush) (v : vm.vec3) : bool :=
  bbox3_containsPoint (Brush_bounds brush) v.

Definition bbox3_merge (a b : vm.bbox3) : vm.bbox3 :=
  vm.mkBBox3
    (p (fmin (vm.x (vm.min a)) (vm.x (vm.min b)))
       (fmin (vm.y (vm.min a)) (vm.y (vm.min b)))
       (fmin (vm.z (vm.min a)) (vm.z (vm.min b))))
    (p (fmax (vm.x (vm.max a)) (vm.x (vm.max b)))
       (fmax (vm.y (vm.max a)) (vm.y (vm.max b)))
       (fmax (vm.z (vm.max a)) (vm.z (vm.max b)))).

(** Matrices that scale the axes and then translate. *)
Definition scaling (sx sy sz : vm.FloatType) (t : vm.vec3) : mat4x4 :=
  mkMat4x4 (mkVec4 sx 0 0 0) (mkVec4 0 sy 0 0) (mkVec4 0 0 sz 0)
           (mkVec4 (vm.x t) (vm.y t) (vm.z t) 1).

Definition mul_vec3 (m : mat4x4) (v : vm.vec3) : vm.vec3 :=
  p (v0 (c0 m) * vm.x v + v0 (c3 m))
    (v1 (c1 m) * vm.y v + v1 (c3 m))
    (v2 (c2 m) * vm.z v + v2 (c3 m)).

Definition mul_direction (m : mat4x4) (v : vm.vec3) : vm.vec3 :=
  p (v0 (c0 m) * vm.x v) (v1 (c1 m) * vm.y v) (v2 (c2 m) * vm.z v).

Definition invert (m : mat4x4) : bool * mat4x4 :=
  let sx := v0 (c0 m) in
  let sy := v1 (c1 m) in
  let sz := v2 (c2 m) in
  if (sx =? 0) || (sy =? 0) || (sz =? 0) then (false, m)
  else (true, scaling (1 / sx) (1 / sy) (1 / sz)
                      (p (- (v0 (c3 m) / sx)) (- (v1 (c3 m) / sy))
                         (- (v2 (c3 m) / sz)))).

Definition ray3_transform (r : vm.ray3) (m : mat4x4) : vm.ray3 :=
  vm.mkRay3 (mul_vec3 m (vm.origin r)) (mul_direction m (vm.direction r)).

Definition bbox3_transform (b : vm.bbox3) (m : mat4x4) : vm.bbox3 :=
  let a := mul_vec3 m (vm.min b) in
  let c := mul_vec3 m (vm.max b) in
  bbox3_merge (vm.mkBBox3 a a) (vm.mkBBox3 c c).

(** The sample values are exact in single precision. *)
Definition ray3f (r : vm.ray3) : vm.ray3 := r.

Definition PatchGrid_point (g : PatchGrid) (row col : N) : GridPoint :=
  nth (N.to_nat (row * pointColumnCount g + col)) (points g)
      (mkGridPoint (p nan nan nan)).

(** The bounds of brush and patch children, merged. *)
Definition nodeBounds (node : Node) : option vm.bbox3 :=
  match node with
  | NBrush b => Some (Brush_bounds (m_brush b))
  | NPatch q => Some (bounds (grid q))
  | _ => None
  end.

Definition mergedBounds (nodes : list Node) (defaultBounds : vm.bbox3)
  : vm.bbox3 :=
  match fold_left
          (fun acc node =>
             match nodeBounds node, acc with
             | Some b, Some a => Some (bbox3_merge a b)
             | Some b, None => Some b
             | None, _ => acc
             end) nodes None with
  | Some b => b
  | None => defaultBounds
  end.

Definition GroupNode_logicalBounds (children : list Node) : vm.bbox3 :=
  mergedBounds children (vm.bbox3_minmax 0).

Definition noEdgeCrossing {A B} (a : A) (b : B) : bool := false.

(** *** Scene elements *)

(** The cube of the design document, bounds [0,0,0] to [10,10,10]; its
    side [x = 10] is stored first. *)
Definition cubeBounds : vm.bbox3 := vm.mkBBox3 (p 0 0 0) (p 10 10 10).
Definition cube : Brush := box cubeBounds.
Definition cubeNode : BrushNode := mkBrushNode cube 0.

(** A ray along [+x] through the middle of the cube, from outside. *)
Definition rayThroughCube : vm.ray3 := vm.mkRay3 (p (-5) 5 5) (p 1 0 0).
(** A ray along [+x] that passes above the cube. *)
Definition rayAboveCube : vm.ray3 := vm.mkRay3 (p (-5) 5 50) (p 1 0 0).

(** A brush with one face, selected in the value handed to the node. *)
Definition oneFace : Brush :=
  mkBrush [mkBrushFace [p 0 0 0; p 0 1 0; p 0 1 1; p 0 0 1] true]
          (vm.mkBBox3 (p 0 0 0) (p 0 1 1)).

(** A 2 x 2 patch grid inside the cube, and one that pokes through its
    top without a sample point inside. *)
Definition gridOf (a b c d : vm.vec3) (bb : vm.bbox3) : PatchGrid :=
  mkPatchGrid 2 2 [mkGridPoint a; mkGridPoint b; mkGridPoint c; mkGridPoint d] bb.

Definition gridInside : PatchGrid :=
  gridOf (p 2 2 5) (p 8 2 5) (p 2 8 5) (p 8 8 5)
         (vm.mkBBox3 (p 2 2 5) (p 8 8 5)).

Definition gridThroughTop : PatchGrid :=
  gridOf (p 2 2 11) (p 2 2 (-1)) (p 8 8 11) (p 8 8 (-1))
         (vm.mkBBox3 (p 2 2 (-1)) (p 8 8 11)).

(** A grid beside a corner of the cube: the bounds overlap, no sample
    point is inside and no edge of the grid reaches the cube; and a grid
    far from the cube. *)
Definition gridBesideCorner : PatchGrid :=
  gridOf (p (-3) 1 5) (p 1 (-3) 5) (p (-3) 1 6) (p 1 (-3) 6)
         (vm.mkBBox3 (p (-3) (-3) 5) (p 1 1 6)).

Definition gridFarAway : PatchGrid :=
  gridOf (p 20 20 5) (p 30 20 5) (p 20 30 5) (p 30 30 5)
         (vm.mkBBox3 (p 20 20 5) (p 30 30 5)).

(** Entities: no model and no definition at the origin [(100, 0, 0)]; and
    one with a model whose transformation is or is not invertible. *)
Definition identity : mat4x4 := scaling 1 1 1 (p 0 0 0).
Definition collapsed : mat4x4 := scaling 1 0 1 (p 0 0 0).

Definition plainEntity : Entity :=
  mkEntity None None (p 100 0 0) identity true.

(** A model as large as the box from [-32] to [32] and hit by every ray
    at distance 3. *)
Definition model : EntityModelFrame :=
  mkEntityModelFrame (vm.bbox3_minmax 32) (fun _ => 3).

Definition modelEntity (transform : mat4x4) : Entity :=
  mkEntity (Some model) None (p 100 0 0) transform true.

Definition entityNode (e : Entity) : EntityNodeOf Node := mkEntityNode e [] None.

(** The sample entity with bounds in its cache that are not its own. *)
Definition staleBounds : CachedBounds :=
  mkCachedBounds (vm.bbox3_minmax 1) (vm.bbox3_minmax 2) (vm.bbox3_minmax 3).

Definition staleNode : EntityNodeOf Node :=
  mkEntityNode plainEntity [] (Some staleBounds).

Definition everythingVisible : EditorContext := mkEditorContext (fun _ => true).

(** A ray along [+x] towards the default bounds of the sample entities,
    and one that starts inside of them. *)
Definition rayToEntity : vm.ray3 := vm.mkRay3 (p 0 0 0) (p 1 0 0).
Definition rayFromInside : vm.ray3 := vm.mkRay3 (p 100 0 0) (p 1 0 0).

End Sample.

(* ================================================================== *)
(** * Validators: data *)
(* ================================================================== *)

(** [Model::EntityProperty]: [key()] and [value()]. *)
Record EntityProperty : Set := mkEntityProperty {
  property_key : String.string;
  property_value : String.string
}.

(** The issues of the three validators.  The node of an issue is given by
    the entity of the node. *)
Inductive Issue : Type :=
| PropertyValueWithDoubleQuotationMarksIssue
    (node : Entity) (propertyKey : String.string)
| MissingDefinitionIssue (node : Entity)
| MissingModIssue (node : Entity) (missingMod message : String.string).

(** The double quotation mark, character 34. *)
Definition doubleQuote : Ascii.ascii := Ascii.ascii_of_nat 34.

(** [s.find(c) != std::string::npos] *)
Fixpoint containsChar (c : Ascii.ascii) (s : String.string) : bool :=
  match s with
  | String.EmptyString => false
  | String.String d rest => if Ascii.eqb d c then true else containsChar c rest
  end.

(** What [MissingModValidator] calls of [Model::Game], over the type of
    search paths. *)
Record Game (Path : Type) : Type := mkGame {
  extractEnabledMods : Entity -> list String.string;
  checkAdditionalSearchPaths : list Path -> list (Path * String.string)
}.

Arguments mkGame {Path} _ _.
Arguments extractEnabledMods {Path} _ _.
Arguments checkAdditionalSearchPaths {Path} _ _.

(** [class MissingModValidator]: the game, a weak pointer that is [None]
    once expired, and the mods seen at the last check. *)
Record MissingModValidator (Path : Type) : Type := mkMissingModValidator {
  m_game : option (Game Path);
  m_lastMods : list String.string
}.

Arguments mkMissingModValidator {Path} _ _.
Arguments m_game {Path} _.
Arguments m_lastMods {Path} _.

(** [MissingModValidator::MissingModValidator(std::weak_ptr<Game> game)] *)
Definition newMissingModValidator {Path : Type} (game : option (Game Path))
  : MissingModValidator Path :=
  mkMissingModValidator game [].

(* ================================================================== *)
(** * More of the sample scene *)
(* ================================================================== *)

Module Scene.

Import String.
Local Open Scope string_scope.

(** *** Tags *)

(** Sample tag masks of 8 bits: a face carries as tag mask the number of
    its vertices. *)
Definition tagBits : N := 8.

Definition tagMask (face : BrushFace) : N :=
  N.of_nat (List.length (face_vertices face)).

Definition tagged (mask : nat) : BrushFace :=
  mkBrushFace (repeat (Sample.p 0 0 0)%float mask) false.

Definition brushOf (faces : list BrushFace) : BrushNode :=
  mkBrushNode (mkBrush faces Sample.cubeBounds) 0.

(** The sample cube with its faces in the opposite order. *)
Definition reversedCube : BrushNode :=
  brushOf (rev (Brush_faces Sample.cube)).

(** *** Selection *)

(** The one-face sample node, and that node after [selectFace(0)]. *)
Definition oneFaceNode : BrushNode := newBrushNode Sample.oneFace.

Definition oneFaceSelected : BrushNode :=
  mkBrushNode
    (mkBrush (map BrushFace_select (Brush_faces (m_brush oneFaceNode)))
             (Brush_bounds Sample.oneFace))
    1.

(** *** Degenerate regions *)

(** A patch grid without rows, columns and sample points, with bounds
    inside the sample cube. *)
Definition gridWithoutPoints : PatchGrid :=
  mkPatchGrid 0 0 [] (vm.mkBBox3 (Sample.p 2 2 5) (Sample.p 8 8 5))%float.

(** A 2 x 2 grid inside the cube whose bounds have their corners the wrong
    way round, and a brush without faces, hence without vertices, with
    bounds inside the cube. *)
Definition gridWithInvertedBounds : PatchGrid :=
  Sample.gridOf (Sample.p 2 2 5)%float (Sample.p 8 2 5)%float
                (Sample.p 2 8 5)%float (Sample.p 8 8 5)%float
                (vm.mkBBox3 (Sample.p 11 11 11) (Sample.p 5 5 5))%float.

Definition brushWithoutFaces : BrushNode :=
  mkBrushNode (mkBrush [] (vm.mkBBox3 (Sample.p 2 2 2) (Sample.p 8 8 8))%float) 0.

(** *** Validators *)

(** An entity is read through sample properties: every entity has the
    class name [worldspawn] and three properties, two of which have a
    double quotation mark in their value. *)
Definition quoted (s : String.string) : String.string :=
  String.String doubleQuote
    (s ++ String.String doubleQuote String.EmptyString).

Definition messageKey : String.string := "message".
Definition wadKey : String.string := "wad".

Definition properties (e : Entity) : list EntityProperty :=
  [ mkEntityProperty "classname" "worldspawn";
    mkEntityProperty messageKey ("say " ++ quoted "hi");
    mkEntityProperty wadKey (quoted "base.wad") ].

Definition classname (e : Entity) : String.string := "worldspawn".

(** Search paths are strings; the sample game has two mods enabled, of
    which one has no directory. *)
Definition game : Game String.string :=
  mkGame (fun _ => ["id1"; "missing"])
         (fun paths =>
            map (fun path => (path, "directory not found"))
                (filter (fun path => String.eqb path "missing") paths)).

Definition asPaths (mods : list String.string) : list String.string := mods.
Definition asString (path : String.string) : String.string := path.

(** The mods the sample game enables, and the issue for the one without
    directory. *)
Definition enabledMods : list String.string := ["id1"; "missing"].

Definition missingModIssue (node : Entity) : Issue :=
  MissingModIssue node "missing" "directory not found".

End Scene.

(* ================================================================== *)
(** * The geometry kernels *)
(* ================================================================== *)

Section Kernels.

#[local] Set Default Proof Using "Type".

(** The functions below are called by [BrushNode.cpp] and
    [EntityNode.cpp] and defined in other translation units.  They are
    pure; a distance they return is a NaN when there is no hit. *)

(** [vm::intersect_ray_bbox(ray, bbox)] *)
Variable intersect_ray_bbox : vm.ray3 -> vm.bbox3 -> vm.FloatType.
(** [vm::point_at_distance(ray, distance)] *)
Variable point_at_distance : vm.ray3 -> vm.FloatType -> vm.vec3.
(** [bbox3::contains(point)] *)
Variable bbox3_containsPoint : vm.bbox3 -> vm.vec3 -> bool.
(** [bbox3::transform(matrix)] and [vm::merge(bbox, bbox)] *)
Variable bbox3_transform : vm.bbox3 -> mat4x4 -> vm.bbox3.
Variable bbox3_merge : vm.bbox3 -> vm.bbox3 -> vm.bbox3.
(** [vm::invert(matrix)], [ray3::transform(matrix)], the narrowing
    [vm::ray3f{ray}], [point_at_distance] on single-precision rays and
    [matrix * vector] *)
Variable invert : mat4x4 -> bool * mat4x4.
Variable ray3_transform : vm.ray3 -> mat4x4 -> vm.ray3.
Variable ray3f : vm.ray3 -> vm.ray3.
Variable point_at_distance_f : vm.ray3 -> vm.FloatType -> vm.vec3.
Variable mat4x4_mul_vec3 : mat4x4 -> vm.vec3 -> vm.vec3.
(** [BrushFace::intersectWithRay(ray)] *)
Variable BrushFace_intersectWithRay : BrushFace -> vm.ray3 -> vm.FloatType.
(** [Brush::containsPoint(point)] *)
Variable Brush_containsPoint : Brush -> vm.vec3 -> bool.
(** [PatchGrid::point(row, col)] *)
Variable PatchGrid_point : PatchGrid -> N -> N -> GridPoint.
(** [computeLogicalBounds(nodes, defaultBounds)] and
    [computePhysicalBounds(nodes, defaultBounds)] of [ModelUtils], and
    [GroupNode::logicalBounds()] as a function of the group's children *)
Variable computeLogicalBounds : list Node -> vm.bbox3 -> vm.bbox3.
Variable computePhysicalBounds : list Node -> vm.bbox3 -> vm.bbox3.
Variable GroupNode_logicalBounds : list Node -> vm.bbox3.
(** "Any edge of one crosses a face of the other", for a brush against a
    box and against a brush. *)
Variable edgeCrossesFace_bbox : Brush -> vm.bbox3 -> bool.
Variable edgeCrossesFace_brush : Brush -> Brush -> bool.

Local Open Scope traced_scope.

(* ------------------------------------------------------------------ *)
(** ** BrushNode: picking *)
(* ------------------------------------------------------------------ *)

(** [const vm::bbox3& BrushNode::doGetLogicalBounds() const] *)
Definition BrushNode_logicalBounds (n : BrushNode) : vm.bbox3 :=
  Brush_bounds (m_brush n).

(** The loop of [findFaceHit]: [faces] are the faces from index [i] on. *)
Fixpoint findFaceHit_from (ray : vm.ray3) (faces : list BrushFace) (i : nat)
  : Traced (option (vm.FloatType * nat)) :=
  match faces with
  | [] => ret None
  | face :: rest =>
      distance <- call (CallFaceRay i) (BrushFace_intersectWithRay face ray) ;;
      if negb (vm.is_nan distance) then ret (Some (distance, i))
      else findFaceHit_from ray rest (S i)
  end.

(** [std::optional<std::tuple<FloatType, size_t>>
     BrushNode::findFaceHit(const vm::ray3& ray) const] *)
Definition findFaceHit (n : BrushNode) (ray : vm.ray3)
  : Traced (option (vm.FloatType * nat)) :=
  boxDistance <- call CallRayBBox
                      (intersect_ray_bbox ray (BrushNode_logicalBounds n)) ;;
  if negb (vm.is_nan boxDistance)
  then findFaceHit_from ray (Brush_faces (m_brush n)) 0
  else ret None.

(** [void BrushNode::doPick(editorContext, ray, pickResult)].  [None] is
    the failure of [ensure(!vm::is_nan(distance), "nan hit distance")]. *)
Definition BrushNode_doPick (editorContext : EditorContext) (n : BrushNode)
  (ray : vm.ray3) (pickResult : PickResult) : Traced (option PickResult) :=
  if visible editorContext (NBrush n) then
    hit <- findFaceHit n ray ;;
    match hit with
    | Some (distance, faceIndex) =>
        if vm.is_nan distance then ret None
        else
          let hitPoint := point_at_distance ray distance in
          ret (Some (addHit pickResult
                       (mkHit BrushHitType distance hitPoint
                              (FaceHandle n faceIndex))))
    | None => ret (Some pickResult)
    end
  else ret (Some pickResult).

(* ------------------------------------------------------------------ *)
(** ** BrushNode: containment and intersection *)
(* ------------------------------------------------------------------ *)

(** [static bool containsPatch(const Brush& brush, const PatchGrid& grid)] *)
Definition containsPatch (brush : Brush) (grid : PatchGrid) : bool :=
  if negb (vm.bbox3_contains (Brush_bounds brush) (bounds grid)) then false
  else forallb (fun point => Brush_containsPoint brush (position point))
               (points grid).

(** [static bool faceIntersectsEdge(face, p0, p1)]: the ray from [p0] to
    [p1] is not normalized, so the distance is in units of the segment. *)
Definition faceIntersectsEdge (face : BrushFace) (p0 p1 : vm.vec3) : bool :=
  let ray := vm.mkRay3 p0 (vm.vec3_sub p1 p0) in
  let dist := BrushFace_intersectWithRay face ray in
  if negb (vm.is_nan dist) then (0 <=? dist)%float && (dist <=? 1)%float
  else false.

(** The "check row edges" loops of [intersectsPatch] for one face. *)
Definition rowEdgeIntersects (face : BrushFace) (grid : PatchGrid) : bool :=
  existsb
    (fun row =>
       existsb
         (fun col =>
            let p0 := position (PatchGrid_point grid row col) in
            let p1 := position (PatchGrid_point grid row (col + 1)%N) in
            faceIntersectsEdge face p0 p1)
         (size_t.range (size_t.decr (pointColumnCount grid))))
    (size_t.range (pointRowCount grid)).

(** The "check column edges" loops of [intersectsPatch] for one face. *)
Definition columnEdgeIntersects (face : BrushFace) (grid : PatchGrid) : bool :=
  existsb
    (fun col =>
       existsb
         (fun row =>
            let p0 := position (PatchGrid_point grid row col) in
            let p1 := position (PatchGrid_point grid (row + 1)%N col) in
            faceIntersectsEdge face p0 p1)
         (size_t.range (size_t.decr (pointRowCount grid))))
    (size_t.range (pointColumnCount grid)).

(** [static bool intersectsPatch(const Brush& brush, const PatchGrid& grid)] *)
Definition intersectsPatch (brush : Brush) (grid : PatchGrid) : bool :=
  if negb (vm.bbox3_intersects (Brush_bounds brush) (bounds grid)) then false
  else if existsb (fun point => Brush_containsPoint brush (position point))
                  (points grid)
  then true
  else existsb (fun face => rowEdgeIntersects face grid
                            || columnEdgeIntersects face grid)
               (Brush_faces brush).

(** Modelled from the spec: [Brush::contains(bounds)] and
    [Brush::contains(brush)] ([Brush.cpp] is not among the sources).  "A
    solid contains another region iff containment bounds-test passes
    first (fast reject) then every vertex/sample of the other region
    satisfies containsPoint." *)
Definition Brush_contains_bbox (this : Brush) (other : vm.bbox3) : bool :=
  vm.bbox3_contains (Brush_bounds this) other
  && forallb (Brush_containsPoint this) (vm.bbox3_vertices other).

Definition Brush_contains_brush (this other : Brush) : bool :=
  vm.bbox3_contains (Brush_bounds this) (Brush_bounds other)
  && forallb (Brush_containsPoint this) (Brush_vertices other).

(** Modelled from the spec: [Brush::intersects(bounds)] and
    [Brush::intersects(brush)] ([Brush.cpp] is not among the sources).
    "Bounds-overlap fast reject; true if either solid contains any vertex
    of the other, or any edge of one crosses a face of the other." *)
Definition Brush_intersects_bbox (this : Brush) (other : vm.bbox3) : bool :=
  vm.bbox3_intersects (Brush_bounds this) other
  && (existsb (Brush_containsPoint this) (vm.bbox3_vertices other)
      || existsb (bbox3_containsPoint other) (Brush_vertices this)
      || edgeCrossesFace_bbox this other).

Definition Brush_intersects_brush (this other : Brush) : bool :=
  vm.bbox3_intersects (Brush_bounds this) (Brush_bounds other)
  && (existsb (Brush_containsPoint this) (Brush_vertices other)
      || existsb (Brush_containsPoint other) (Brush_vertices this)
      || edgeCrossesFace_brush this other).

(* ------------------------------------------------------------------ *)
(** ** EntityNode: the bounds cache *)
(* ------------------------------------------------------------------ *)

(** [const vm::bbox3 EntityNode::DefaultBounds = vm::bbox3{8.0}] *)
Definition DefaultBounds : vm.bbox3 := vm.bbox3_minmax 8%float.

(** [Node::hasChildren()] *)
Definition hasChildren (n : EntityNode) : bool :=
  match m_children n with [] => false | _ :: _ => true end.

(** [void EntityNode::invalidateBounds()]:
    [m_cachedBounds = std::nullopt]. *)
Definition invalidateBounds (n : EntityNode) : EntityNode :=
  mkEntityNode (m_entity n) (m_children n) None.

(** What [validateBounds] stores in an empty slot: the bounds computed
    from the entity's model, definition and origin and from the children
    (the body of [validateBounds] after its early return). *)
Definition computeBounds (entity : Entity) (children : list Node)
  : CachedBounds :=
  let modelBounds :=
    match Entity_model entity with
    | Some model =>
        bbox3_transform (frame_bounds model) (Entity_modelTransformation entity)
    | None =>
        bbox3_transform DefaultBounds (Entity_modelTransformation entity)
    end in
  match children with
  | _ :: _ =>
      mkCachedBounds modelBounds
        (computeLogicalBounds children (vm.bbox3_minmax 0%float))
        (computePhysicalBounds children (vm.bbox3_minmax 0%float))
  | [] =>
      let definitionBounds :=
        match Entity_definition entity with
        | Some (PointEntityDefinition definitionBounds) => definitionBounds
        | _ => DefaultBounds
        end in
      let logicalBounds :=
        vm.bbox3_translate definitionBounds (Entity_origin entity) in
      mkCachedBounds modelBounds logicalBounds
        match Entity_model entity with
        | Some _ => bbox3_merge logicalBounds modelBounds
        | None => logicalBounds
        end
  end.

(** [void EntityNode::validateBounds() const]: nothing to do when the
    slot holds bounds; otherwise fills it. *)
Definition validateBounds (n : EntityNode) : EntityNode :=
  match m_cachedBounds n with
  | Some _ => n
  | None =>
      mkEntityNode (m_entity n) (m_children n)
                   (Some (computeBounds (m_entity n) (m_children n)))
  end.

(** [*m_cachedBounds].  Dereferencing an empty optional is undefined; every
    use below comes right after [validateBounds], where the slot is
    filled ([validateBounds_filled]). *)
Definition cachedBounds (n : EntityNode) : CachedBounds :=
  match m_cachedBounds n with
  | Some c => c
  | None => let zero := vm.bbox3_minmax 0%float in mkCachedBounds zero zero zero
  end.

(** [const vm::bbox3& EntityNode::modelBounds() const]: the bounds read
    and the node with its cache validated. *)
Definition EntityNode_modelBounds (n : EntityNode) : vm.bbox3 * EntityNode :=
  let n' := validateBounds n in (modelBounds (cachedBounds n'), n').

(** [const vm::bbox3& EntityNode::doGetLogicalBounds() const] *)
Definition EntityNode_logicalBounds (n : EntityNode) : vm.bbox3 * EntityNode :=
  let n' := validateBounds n in (logicalBounds (cachedBounds n'), n').

(** [const vm::bbox3& EntityNode::doGetPhysicalBounds() const] *)
Definition EntityNode_physicalBounds (n : EntityNode) : vm.bbox3 * EntityNode :=
  let n' := validateBounds n in (physicalBounds (cachedBounds n'), n').

(* ------------------------------------------------------------------ *)
(** ** EntityNode: children *)
(* ------------------------------------------------------------------ *)

(** [bool EntityNode::doCanAddChild(const Node* child) const] *)
Definition doCanAddChild (n : EntityNode) (child : Node) : bool :=
  match child with
  | NWorld _ => false
  | NLayer _ => false
  | NGroup _ => false
  | NEntity _ => false
  | NBrush _ => true
  | NPatch _ => true
  end.

(** [void EntityNode::doNodePhysicalBoundsDidChange()] *)
Definition doNodePhysicalBoundsDidChange (n : EntityNode) : EntityNode :=
  invalidateBounds n.

(** Modelled from the spec: [Node::nodePhysicalBoundsDidChange()]
    ([Node.cpp] is not among the sources) runs the node's own hook and
    then notifies the parent, whose state is not part of this node. *)
Definition nodePhysicalBoundsDidChange (n : EntityNode) : EntityNode :=
  doNodePhysicalBoundsDidChange n.

(** [void EntityNode::doChildWasAdded(Node* node)] *)
Definition doChildWasAdded (n : EntityNode) : EntityNode :=
  nodePhysicalBoundsDidChange
    (mkEntityNode (Entity_setPointEntity (m_entity n) (negb (hasChildren n)))
                  (m_children n) (m_cachedBounds n)).

(** [void EntityNode::doChildWasRemoved(Node* node)] *)
Definition doChildWasRemoved (n : EntityNode) : EntityNode :=
  nodePhysicalBoundsDidChange
    (mkEntityNode (Entity_setPointEntity (m_entity n) (negb (hasChildren n)))
                  (m_children n) (m_cachedBounds n)).

(** Modelled from the spec: [Node::addChild] and [Node::removeChild]
    ([Node.cpp] is not among the sources) change the owned children and
    then fire the child-was-added or child-was-removed hook.  The child
    to remove is given by its position. *)
Definition addChild (n : EntityNode) (child : Node) : EntityNode :=
  doChildWasAdded
    (mkEntityNode (m_entity n) (m_children n ++ [child]) (m_cachedBounds n)).

Definition removeChild (n : EntityNode) (index : nat) : EntityNode :=
  doChildWasRemoved
    (mkEntityNode (m_entity n)
                  (firstn index (m_children n) ++ skipn (S index) (m_children n))
                  (m_cachedBounds n)).

(* ------------------------------------------------------------------ *)
(** ** EntityNode: picking *)
(* ------------------------------------------------------------------ *)

(** The second half of [EntityNode::doPick], "only if the bbox hit test
    failed do we hit test the model"; [n] has its bounds validated. *)
Definition pickModel (n : EntityNode) (ray : vm.ray3) (pickResult : PickResult)
  : Traced PickResult :=
  match Entity_model (m_entity n) with
  | Some model =>
      let transform := Entity_modelTransformation (m_entity n) in
      inverted <- call CallInvert (invert transform) ;;
      let (invertible, inverse) := inverted : bool * mat4x4 in
      if invertible then
        let transformedRay := ray3f (ray3_transform ray inverse) in
        distance <- call CallModelRay (frame_intersect model transformedRay) ;;
        if negb (vm.is_nan distance) then
          let transformedHitPoint := point_at_distance_f transformedRay distance in
          let hitPoint := mat4x4_mul_vec3 transform transformedHitPoint in
          ret (addHit pickResult
                 (mkHit EntityHitType distance hitPoint (EntityTarget n)))
        else ret pickResult
      else ret pickResult
  | None => ret pickResult
  end.

(** [void EntityNode::doPick(editorContext, ray, pickResult)]: the pick
    result and the node, whose bounds cache the pick may have filled. *)
Definition EntityNode_doPick (editorContext : EditorContext) (n : EntityNode)
  (ray : vm.ray3) (pickResult : PickResult) : Traced (PickResult * EntityNode) :=
  if negb (hasChildren n) && visible editorContext (NEntity n) then
    let (myBounds, n') := EntityNode_logicalBounds n in
    if negb (bbox3_containsPoint myBounds (vm.origin ray)) then
      distance <- call CallRayBBox (intersect_ray_bbox ray myBounds) ;;
      if negb (vm.is_nan distance) then
        let hitPoint := point_at_distance ray distance in
        ret (addHit pickResult
               (mkHit EntityHitType distance hitPoint (EntityTarget n')), n')
      else
        picked <- pickModel n' ray pickResult ;; ret (picked, n')
    else
      picked <- pickModel n' ray pickResult ;; ret (picked, n')
  else ret (pickResult, n).

(* ------------------------------------------------------------------ *)
(** ** BrushNode: [contains] and [intersects] *)
(* ------------------------------------------------------------------ *)

(** [bool BrushNode::contains(const Node* node) const].  Reading the
    logical bounds of an entity node may fill the cache of that node; the
    function returns the boolean. *)
Definition contains (this : BrushNode) (node : Node) : bool :=
  match node with
  | NWorld _ => false
  | NLayer _ => false
  | NGroup group =>
      Brush_contains_bbox (m_brush this) (GroupNode_logicalBounds group)
  | NEntity entity =>
      Brush_contains_bbox (m_brush this) (fst (EntityNode_logicalBounds entity))
  | NBrush brush => Brush_contains_brush (m_brush this) (m_brush brush)
  | NPatch patch => containsPatch (m_brush this) (grid patch)
  end.

(** [bool BrushNode::intersects(const Node* node) const] *)
Definition intersects (this : BrushNode) (node : Node) : bool :=
  match node with
  | NWorld _ => false
  | NLayer _ => false
  | NGroup group =>
      Brush_intersects_bbox (m_brush this) (GroupNode_logicalBounds group)
  | NEntity entity =>
      Brush_intersects_bbox (m_brush this) (fst (EntityNode_logicalBounds entity))
  | NBrush brush => Brush_intersects_brush (m_brush this) (m_brush brush)
  | NPatch patch => intersectsPatch (m_brush this) (grid patch)
  end.

(* ------------------------------------------------------------------ *)
(** ** Predicates of the statements *)
(* ------------------------------------------------------------------ *)

(** Face [i] is the first face in stored order whose intersection with
    [ray] is defined, and [distance] is that intersection. *)
Definition firstHitByFaceOrder (faces : list BrushFace) (ray : vm.ray3)
  (distance : vm.FloatType) (i : nat) : Prop :=
  (exists face, nth_error faces i = Some face
                /\ BrushFace_intersectWithRay face ray = distance)
  /\ vm.is_nan distance = false
  /\ (forall j face, j < i -> nth_error faces j = Some face ->
        vm.is_nan (BrushFace_intersectWithRay face ray) = true).

(** No face has a defined intersection with [ray]. *)
Definition noFaceHit (faces : list BrushFace) (ray : vm.ray3) : Prop :=
  forall face, In face faces ->
    vm.is_nan (BrushFace_intersectWithRay face ray) = true.

(** [p0] and [p1] are sample points next to each other in a row of the
    grid. *)
Definition rowAdjacent (grid : PatchGrid) (p0 p1 : vm.vec3) : Prop :=
  exists row col : N,
    (row < pointRowCount grid)%N /\ (col + 1 < pointColumnCount grid)%N
    /\ p0 = position (PatchGrid_point grid row col)
    /\ p1 = position (PatchGrid_point grid row (col + 1)%N).

(** [p0] and [p1] are sample points next to each other in a column of the
    grid. *)
Definition columnAdjacent (grid : PatchGrid) (p0 p1 : vm.vec3) : Prop :=
  exists row col : N,
    (row + 1 < pointRowCount grid)%N /\ (col < pointColumnCount grid)%N
    /\ p0 = position (PatchGrid_point grid row col)
    /\ p1 = position (PatchGrid_point grid (row + 1)%N col).

(** The segment from [p0] to [p1] meets [face]: the ray from [p0] towards
    [p1] has a defined intersection with the face, at a ray parameter in
    [[0, 1]]. *)
Definition segmentIntersectsFace (face : BrushFace) (p0 p1 : vm.vec3) : Prop :=
  let dist :=
    BrushFace_intersectWithRay face (vm.mkRay3 p0 (vm.vec3_sub p1 p0)) in
  vm.is_nan dist = false
  /\ (0 <=? dist)%float = true /\ (dist <=? 1)%float = true.

(** Some sample point of the grid lies in the brush. *)
Definition containsSamplePoint (brush : Brush) (grid : PatchGrid) : Prop :=
  exists point, In point (points grid)
                /\ Brush_containsPoint brush (position point) = true.

(** Some segment between adjacent sample points meets some face. *)
Definition gridEdgeIntersectsFace (brush : Brush) (grid : PatchGrid) : Prop :=
  exists face p0 p1,
    In face (Brush_faces brush)
    /\ (rowAdjacent grid p0 p1 \/ columnAdjacent grid p0 p1)
    /\ segmentIntersectsFace face p0 p1.

(** The bounds test of [EntityNode::doPick]: the ray starts outside of the
    bounds and its intersection with them is defined. *)
Definition boundsHit (myBounds : vm.bbox3) (ray : vm.ray3) : bool :=
  negb (bbox3_containsPoint myBounds (vm.origin ray))
  && negb (vm.is_nan (intersect_ray_bbox ray myBounds)).

(** The ray of a pick, taken into the model space of an entity. *)
Definition modelSpaceRay (entity : Entity) (ray : vm.ray3) : vm.ray3 :=
  ray3f (ray3_transform ray (snd (invert (Entity_modelTransformation entity)))).

(** A bounds cache is coherent when the bounds it holds are those of the
    entity and children of its node. *)
Definition cacheCoherent (n : EntityNode) : Prop :=
  forall c, m_cachedBounds n = Some c ->
            c = computeBounds (m_entity n) (m_children n).

(** The invariants of the data model that [contains] and [intersects]
    rely on in their argument: bounds are the tight box of a vertex or
    sample set that is not empty, so they are a valid box, a brush has a
    vertex and a patch grid has a sample point. *)
Definition wellFormedRegion (node : Node) : Prop :=
  match node with
  | NWorld _ => True
  | NLayer _ => True
  | NGroup group => vm.bbox3_valid (GroupNode_logicalBounds group) = true
  | NEntity entity =>
      vm.bbox3_valid (fst (EntityNode_logicalBounds entity)) = true
  | NBrush brush =>
      vm.bbox3_valid (Brush_bounds (m_brush brush)) = true
      /\ Brush_vertices (m_brush brush) <> []
  | NPatch patch =>
      vm.bbox3_valid (bounds (grid patch)) = true
      /\ points (grid patch) <> []
  end.

(* ================================================================== *)
(** * More of the two nodes *)
(* ================================================================== *)

(* ------------------------------------------------------------------ *)
(** ** BrushNode: what a sequence of selection calls does *)
(* ------------------------------------------------------------------ *)

(** How many [selectFace] and how many [deselectFace] calls a sequence
    holds. *)
Definition selectCalls (cs : list SelectionCall) : nat :=
  length (filter (fun c => match c with SelectFace _ => true | _ => false end) cs).

Definition deselectCalls (cs : list SelectionCall) : nat :=
  length (filter (fun c => match c with DeselectFace _ => true | _ => false end) cs).

(** The flag that the last call of [cs] on face [i] leaves, if a call of
    [cs] names that face. *)
Fixpoint lastCallOn (i : nat) (cs : list SelectionCall) : option bool :=
  match cs with
  | [] => None
  | c :: rest =>
      match lastCallOn i rest with
      | Some flag => Some flag
      | None =>
          if Nat.eqb (indexOf c) i
          then Some match c with SelectFace _ => true | DeselectFace _ => false end
          else None
      end
  end.

(* ------------------------------------------------------------------ *)
(** ** BrushNode: the entity a brush belongs to *)
(* ------------------------------------------------------------------ *)

(** [const EntityNodeBase* BrushNode::entity() const].  The parent
    pointers of a node are given as the chain of its ancestors, the
    parent first; a node without parent has the empty chain, on which
    [visitParent] gives no value.  A world or an entity ends the walk;
    layers, groups, brushes and patches pass it on to their own parent. *)
Fixpoint BrushNode_entity (ancestors : list Node) : option Node :=
  match ancestors with
  | [] => None
  | NWorld children :: _ => Some (NWorld children)
  | NEntity entity :: _ => Some (NEntity entity)
  | NLayer _ :: rest => BrushNode_entity rest
  | NGroup _ :: rest => BrushNode_entity rest
  | NBrush _ :: rest => BrushNode_entity rest
  | NPatch _ :: rest => BrushNode_entity rest
  end.

(** The nodes that derive from [EntityNodeBase]. *)
Definition isEntityNodeBase (node : Node) : bool :=
  match node with
  | NWorld _ => true
  | NEntity _ => true
  | _ => false
  end.

(* ------------------------------------------------------------------ *)
(** ** BrushNode: tags of the faces *)
(* ------------------------------------------------------------------ *)

(** The number of bits of [TagType::Type] and [BrushFace::tagMask()]. *)
Variable tagBits : N.
Variable BrushFace_tagMask : BrushFace -> N.

(** [TagType::AnyType], which the source comments as "set all bits
    to 1". *)
Definition AnyType : N := N.ones tagBits.

(** [bool BrushNode::allFacesHaveAnyTagInMask(TagType::Type tagMask) const] *)
Definition allFacesHaveAnyTagInMask (n : BrushNode) (tagMask : N) : bool :=
  let sharedFaceTags :=
    fold_left (fun shared face => N.land shared (BrushFace_tagMask face))
              (Brush_faces (m_brush n)) AnyType in
  negb (N.land sharedFaceTags tagMask =? 0)%N.

(* ------------------------------------------------------------------ *)
(** ** BrushNode and EntityNode: the nodes that contain a point *)
(* ------------------------------------------------------------------ *)

(** [doFindNodesContaining] of the classes whose source is not at hand
    (world, layer, group and patch nodes). *)
Variable otherFindNodesContaining : Node -> vm.vec3 -> list Node -> list Node.



(* ------------------------------------------------------------------ *)
(** ** EntityNode: the other members *)
(* ------------------------------------------------------------------ *)

(** [Entity::setModel(propertyConfig, modelFrame)] *)
Variable Entity_setModel : Entity -> option EntityModelFrame -> Entity.

(** [EntityNode::EntityNode(Entity entity)]: no children, and a
    cached-bounds slot that starts empty. *)
Definition newEntityNode (entity : Entity) : EntityNode :=
  mkEntityNode entity [] None.

(** [void EntityNode::setModelFrame(const Assets::EntityModelFrame* modelFrame)] *)
Definition setModelFrame (n : EntityNode) (modelFrame : option EntityModelFrame)
  : EntityNode :=
  nodePhysicalBoundsDidChange
    (mkEntityNode (Entity_setModel (m_entity n) modelFrame)
                  (m_children n) (m_cachedBounds n)).

(** [void EntityNode::doChildPhysicalBoundsDidChange()] *)
Definition doChildPhysicalBoundsDidChange (n : EntityNode) : EntityNode :=
  nodePhysicalBoundsDidChange (invalidateBounds n).

(** [void EntityNode::doPropertiesDidChange(const vm::bbox3& oldBounds)] *)
Definition doPropertiesDidChange (n : EntityNode) : EntityNode :=
  nodePhysicalBoundsDidChange n.

(** [bool EntityNode::doSelectable() const] *)
Definition doSelectable (n : EntityNode) : bool := negb (hasChildren n).

(** [std::vector<Node*> EntityNode::nodesRequiredForViewSelection()] *)
Definition nodesRequiredForViewSelection (n : EntityNode) : list Node :=
  if hasChildren n then m_children n else [NEntity n].

(** The calls on an entity node that read or change its state. *)
Inductive EntityNodeCall : Type :=
| DoSetModelFrame (modelFrame : option EntityModelFrame)
| DoAddChild (child : Node)
| DoRemoveChild (index : nat)
| DoChildPhysicalBoundsDidChange
| DoPropertiesDidChange
| DoInvalidateBounds
| DoModelBounds
| DoLogicalBounds
| DoPhysicalBounds
| DoPick (editorContext : EditorContext) (ray : vm.ray3)
         (pickResult : PickResult).

(** The node after a call. *)
Definition entityNodeCall (n : EntityNode) (c : EntityNodeCall) : EntityNode :=
  match c with
  | DoSetModelFrame modelFrame => setModelFrame n modelFrame
  | DoAddChild child => addChild n child
  | DoRemoveChild index => removeChild n index
  | DoChildPhysicalBoundsDidChange => doChildPhysicalBoundsDidChange n
  | DoPropertiesDidChange => doPropertiesDidChange n
  | DoInvalidateBounds => invalidateBounds n
  | DoModelBounds => snd (EntityNode_modelBounds n)
  | DoLogicalBounds => snd (EntityNode_logicalBounds n)
  | DoPhysicalBounds => snd (EntityNode_physicalBounds n)
  | DoPick editorContext ray pickResult =>
      snd (value (EntityNode_doPick editorContext n ray pickResult))
  end.

(** The node after a sequence of calls, first call first. *)
Definition entityNodeCalls (n : EntityNode) (cs : list EntityNodeCall)
  : EntityNode :=
  fold_left entityNodeCall cs n.

(* ------------------------------------------------------------------ *)
(** ** Validators *)
(* ------------------------------------------------------------------ *)

(** [Entity::classname()] and [Entity::properties()], the constant
    [EntityPropertyValues::WorldspawnClassname], and the search paths:
    [IO::Path], [IO::Path::asPaths] and [Path::asString]. *)
Variable Entity_classname : Entity -> String.string.
Variable Entity_properties : Entity -> list EntityProperty.
Variable WorldspawnClassname : String.string.
Variable Path : Type.
Variable Path_asPaths : list String.string -> list Path.
Variable Path_asString : Path -> String.string.

(** [void PropertyValueWithDoubleQuotationMarksValidator::doValidate(
     EntityNodeBase& node, std::vector<std::unique_ptr<Issue>>& issues) const] *)
Definition PropertyValueWithDoubleQuotationMarksValidator_doValidate
  (node : Entity) (issues : list Issue) : list Issue :=
  fold_left
    (fun issues property =>
       let propertyKey := property_key property in
       let propertyValue := property_value property in
       if containsChar doubleQuote propertyValue
       then issues ++ [PropertyValueWithDoubleQuotationMarksIssue node propertyKey]
       else issues)
    (Entity_properties node) issues.

(** [void MissingDefinitionValidator::doValidate(node, issues) const] *)
Definition MissingDefinitionValidator_doValidate
  (node : Entity) (issues : list Issue) : list Issue :=
  match Entity_definition node with
  | None => issues ++ [MissingDefinitionIssue node]
  | Some _ => issues
  end.

(** [void MissingModValidator::doValidate(node, issues) const]: the issues
    and the validator, whose [m_lastMods] is mutable. *)
Definition MissingModValidator_doValidate
  (this : MissingModValidator Path) (node : Entity) (issues : list Issue)
  : list Issue * MissingModValidator Path :=
  if negb (String.eqb (Entity_classname node) WorldspawnClassname)
  then (issues, this)
  else
    match m_game this with
    | None => (issues, this)
    | Some game =>
        let mods := extractEnabledMods game node in
        if list_eq_dec String.string_dec mods (m_lastMods this)
        then (issues, this)
        else
          let additionalSearchPaths := Path_asPaths mods in
          let errors := checkAdditionalSearchPaths game additionalSearchPaths in
          (fold_left
             (fun issues error =>
                issues ++ [MissingModIssue node (Path_asString (fst error))
                                           (snd error)])
             errors issues,
           mkMissingModValidator (m_game this) mods)
    end.
(* ================================================================== *)
(** * Order facts on binary64 values *)
(* ================================================================== *)

Section FloatOrder.

Local Open Scope float_scope.

(** Both comparisons of [SpecFloat] order lexicographically on sign,
    exponent and mantissa; the mixed transitivity laws follow by cases. *)
Ltac sf_finite_case ea eb ec ma mb mc :=
  destruct (Z.compare_spec ea eb), (Z.compare_spec eb ec),
    (Z.compare_spec ea ec); try discriminate; try reflexivity; try lia;
  subst; fold (Pos.compare mb mc) in *; fold (Pos.compare ma mb) in *;
  fold (Pos.compare ma mc) in *;
  destruct (Pos.compare_spec ma mb), (Pos.compare_spec mb mc),
    (Pos.compare_spec ma mc); simpl in *;
  try discriminate; try reflexivity; try lia.

Ltac sf_order a b c :=
  unfold SFleb, SFltb, SFcompare;
  destruct a as [?|?| |? ?ma ?ea], b as [?|?| |? ?mb ?eb],
           c as [?|?| |? ?mc ?ec];
  repeat match goal with s : bool |- _ => destruct s end;
  simpl; try discriminate; try reflexivity; intros ? ?;
  sf_finite_case ea eb ec ma mb mc.

Lemma SFcompare_le_lt_trans (a b c : spec_float) :
  SFleb a b = true -> SFltb b c = true -> SFltb a c = true.
Proof.
  sf_order a b c.
Qed.

Lemma SFcompare_lt_le_trans (a b c : spec_float) :
  SFltb a b = true -> SFleb b c = true -> SFltb a c = true.
Proof.
  sf_order a b c.
Qed.

Lemma float_le_lt_trans (a b c : float) :
  (a <=? b) = true -> (b <? c) = true -> (a <? c) = true.
Proof.
  rewrite leb_spec, !ltb_spec. apply SFcompare_le_lt_trans.
Qed.

Lemma float_lt_le_trans (a b c : float) :
  (a <? b) = true -> (b <=? c) = true -> (a <? c) = true.
Proof.
  rewrite leb_spec, !ltb_spec. apply SFcompare_lt_le_trans.
Qed.

(** On one axis: an interval [[lo', hi']] that is valid and does not
    stick out of [[lo, hi]] overlaps it. *)
Lemma axis_contains_overlaps (lo hi lo' hi' : float) :
  (lo' <=? hi') = true ->
  negb (lo' <? lo) = true -> negb (hi <? hi') = true ->
  negb (hi' <? lo) && negb (hi <? lo') = true.
Proof.
  intros Hv Hlo Hhi.
  apply negb_true_iff in Hlo. apply negb_true_iff in Hhi.
  apply andb_true_iff; split; apply negb_true_iff.
  - destruct (hi' <? lo) eqn:E; [|reflexivity].
    rewrite (float_le_lt_trans _ _ _ Hv E) in Hlo. discriminate.
  - destruct (hi <? lo') eqn:E; [|reflexivity].
    rewrite (float_lt_le_trans _ _ _ E Hv) in Hhi. discriminate.
Qed.

(** A valid box contained in another box overlaps it. *)
Lemma bbox3_contains_intersects (a b : vm.bbox3) :
  vm.bbox3_valid b = true ->
  vm.bbox3_contains a b = true -> vm.bbox3_intersects a b = true.
Proof.
  unfold vm.bbox3_valid, vm.bbox3_contains, vm.bbox3_intersects.
  intros Hv Hc.
  repeat (apply andb_true_iff in Hv; destruct Hv as [Hv ?]).
  repeat (apply andb_true_iff in Hc; destruct Hc as [Hc ?]).
  rewrite <- !andb_assoc.
  rewrite (andb_assoc (negb (vm.x (vm.max b) <? vm.x (vm.min a)))).
  rewrite axis_contains_overlaps by assumption.
  rewrite (andb_assoc (negb (vm.y (vm.max b) <? vm.y (vm.min a)))).
  rewrite axis_contains_overlaps by assumption.
  rewrite axis_contains_overlaps by assumption.
  reflexivity.
Qed.

End FloatOrder.

(** ** [size_t] arithmetic *)

Lemma size_t_decr_pos (n : N) : (0 < n)%N -> size_t.decr n = (n - 1)%N.
Proof.
  intros H. unfold size_t.decr. destruct (N.eqb_spec n 0); [lia|reflexivity].
Qed.

Lemma size_t_incr_small (n : N) : (n + 1 < size_t.modulus)%N -> size_t.incr n = (n + 1)%N.
Proof. intros H. unfold size_t.incr. apply N.mod_small. exact H. Qed.

Lemma size_t_in_range (n i : N) : In i (size_t.range n) <-> (i < n)%N.
Proof.
  unfold size_t.range. rewrite in_map_iff. split.
  - intros [k [<- Hk]]. apply in_seq in Hk. lia.
  - intros H. exists (N.to_nat i). split; [apply N2Nat.id|].
    apply in_seq. lia.
Qed.


(* ================================================================== *)
(** * BrushNode: picking *)
(* ================================================================== *)

Lemma bind_call {A B} (c : Call) (v : A) (k : A -> Traced B) :
  bind (call c v) k = (value (k v), c :: trace (k v)).
Proof. unfold bind, call, value, trace. destruct (k v); reflexivity. Qed.

Lemma bind_ret {A B} (v : A) (k : A -> Traced B) : bind (ret v) k = k v.
Proof. unfold bind, ret. destruct (k v); reflexivity. Qed.

(** The loop stops at the first face with a defined intersection, having
    tested the faces before it and that face. *)
Lemma findFaceHit_from_hit (ray : vm.ray3) (faces : list BrushFace) :
  forall (start k : nat) (distance : vm.FloatType),
    firstHitByFaceOrder faces ray distance k ->
    findFaceHit_from ray faces start
    = (Some (distance, start + k), map CallFaceRay (seq start (S k))).
Proof.
  induction faces as [|face rest IH]; intros start k distance [[f [Hf Hd]] [Hn Hbefore]].
  - destruct k; discriminate.
  - cbn [findFaceHit_from]. rewrite bind_call. destruct k as [|k].
    + injection Hf as <-. rewrite Hd, Hn. cbn. rewrite Nat.add_0_r. reflexivity.
    + rewrite (Hbefore 0 face) by (cbn; (lia || reflexivity)). cbn [negb].
      rewrite (IH (S start) k distance).
      * cbn. rewrite Nat.add_succ_r. reflexivity.
      * split; [exists f; split; assumption|]. split; [assumption|].
        intros j f' Hj Hf'. apply (Hbefore (S j) f'); [lia|exact Hf'].
Qed.

(** The loop tests every face when none has a defined intersection. *)
Lemma findFaceHit_from_miss (ray : vm.ray3) (faces : list BrushFace) :
  forall start : nat,
    noFaceHit faces ray ->
    findFaceHit_from ray faces start
    = (None, map CallFaceRay (seq start (length faces))).
Proof.
  induction faces as [|face rest IH]; intros start Hall.
  - reflexivity.
  - cbn [findFaceHit_from]. rewrite bind_call.
    rewrite (Hall face) by (left; reflexivity). cbn [negb].
    rewrite IH by (intros f Hf; apply Hall; right; exact Hf).
    reflexivity.
Qed.

(** Either some face is the first hit by face order, or no face is hit. *)
Lemma firstHit_or_none (ray : vm.ray3) (faces : list BrushFace) :
  (exists distance k, firstHitByFaceOrder faces ray distance k)
  \/ noFaceHit faces ray.
Proof.
  induction faces as [|face rest IH].
  - right. intros f [].
  - destruct (vm.is_nan (BrushFace_intersectWithRay face ray)) eqn:E.
    + destruct IH as [[d [k [[f [Hf Hd]] [Hn Hb]]]]|Hnone].
      * left. exists d, (S k). split; [exists f; split; assumption|].
        split; [assumption|]. intros [|j] f' Hj Hf'.
        -- injection Hf' as <-. exact E.
        -- apply (Hb j f'); [lia|exact Hf'].
      * right. intros f [<-|Hf]; [exact E|apply Hnone, Hf].
    + left. exists (BrushFace_intersectWithRay face ray), 0.
      split; [exists face; split; reflexivity|]. split; [exact E|].
      intros j f' Hj. lia.
Qed.

(** C1. [BrushNode::findFaceHit] tests the ray against the bounding box of
    the brush first.  When that test gives no intersection it returns no
    hit and no face has been tested (the trace holds the box test alone).
    Otherwise it walks the faces in stored index order: it returns the
    distance and the index of the first face whose intersection with the
    ray is defined, having tested exactly the faces up to that one, and it
    returns no hit after testing all faces when none is hit.  The face
    returned is the first by stored order, whatever the distances of the
    later faces. *)
Theorem findFaceHit_first_hit_by_face_order (n : BrushNode) (ray : vm.ray3) :
  let faces := Brush_faces (m_brush n) in
  let boxDistance := intersect_ray_bbox ray (BrushNode_logicalBounds n) in
  (exists rest, trace (findFaceHit n ray) = CallRayBBox :: rest)
  /\ (vm.is_nan boxDistance = true ->
        findFaceHit n ray = (None, [CallRayBBox])
        /\ faceRayCalls (trace (findFaceHit n ray)) = 0)
  /\ (vm.is_nan boxDistance = false ->
        (forall distance i,
            firstHitByFaceOrder faces ray distance i ->
            findFaceHit n ray
            = (Some (distance, i),
               CallRayBBox :: map CallFaceRay (seq 0 (S i))))
        /\ (noFaceHit faces ray ->
            findFaceHit n ray
            = (None, CallRayBBox :: map CallFaceRay (seq 0 (length faces))))
        /\ ((exists distance i, firstHitByFaceOrder faces ray distance i)
            \/ noFaceHit faces ray)).
Proof.
  cbv zeta. unfold findFaceHit. rewrite bind_call.
  split; [eexists; reflexivity|]. split.
  - intros ->. cbn. split; reflexivity.
  - intros ->. cbn [negb]. split; [|split].
    + intros distance i H.
      rewrite (findFaceHit_from_hit _ _ 0 _ _ H). reflexivity.
    + intros H. rewrite (findFaceHit_from_miss _ _ 0 H). reflexivity.
    + apply firstHit_or_none.
Qed.

(** [BrushNode::doPick] never trips its [ensure]: invisible nodes and
    misses leave the pick result as it is, a hit appends one record. *)
Lemma BrushNode_doPick_ensures (editorContext : EditorContext) (n : BrushNode)
  (ray : vm.ray3) (pickResult : PickResult) :
  exists picked, value (BrushNode_doPick editorContext n ray pickResult) = Some picked
    /\ (picked = pickResult \/ exists h, picked = addHit pickResult h).
Proof.
  unfold BrushNode_doPick. destruct (visible editorContext (NBrush n)).
  2:{ exists pickResult. split; [reflexivity|left; reflexivity]. }
  unfold findFaceHit. rewrite bind_call.
  destruct (vm.is_nan (intersect_ray_bbox ray (BrushNode_logicalBounds n))).
  { exists pickResult. split; [reflexivity|left; reflexivity]. }
  cbn [negb].
  destruct (firstHit_or_none ray (Brush_faces (m_brush n)))
    as [[d [k H]]|H].
  - rewrite (findFaceHit_from_hit _ _ 0 _ _ H). destruct H as [_ [Hn _]].
    cbn. unfold bind, value. cbn. rewrite Hn. cbn.
    eexists. split; [reflexivity|right; eexists; reflexivity].
  - rewrite (findFaceHit_from_miss _ _ 0 H). cbn.
    exists pickResult. split; [reflexivity|left; reflexivity].
Qed.

(* ================================================================== *)
(** * Patch grids against brushes *)
(* ================================================================== *)

Lemma faceIntersectsEdge_iff (face : BrushFace) (p0 p1 : vm.vec3) :
  faceIntersectsEdge face p0 p1 = true <-> segmentIntersectsFace face p0 p1.
Proof.
  unfold faceIntersectsEdge, segmentIntersectsFace. cbv zeta.
  destruct (vm.is_nan _); cbn [negb].
  - split; [discriminate|intros [H _]; discriminate].
  - rewrite andb_true_iff. split.
    + intros [H0 H1]. repeat split; assumption.
    + intros [_ [H0 H1]]. split; assumption.
Qed.

Lemma rowEdgeIntersects_iff (face : BrushFace) (grid : PatchGrid) :
  (0 < pointColumnCount grid)%N ->
  rowEdgeIntersects face grid = true
  <-> exists p0 p1, rowAdjacent grid p0 p1 /\ segmentIntersectsFace face p0 p1.
Proof.
  intros Hc. unfold rowEdgeIntersects, rowAdjacent.
  rewrite size_t_decr_pos by exact Hc. rewrite existsb_exists. split.
  - intros [row [Hrow H]]. apply existsb_exists in H as [col [Hcol H]].
    apply size_t_in_range in Hrow, Hcol. apply faceIntersectsEdge_iff in H.
    eexists _, _. split; [|exact H].
    exists row, col. repeat split; lia.
  - intros [p0 [p1 [[row [col [Hrow [Hcol [-> ->]]]]] H]]].
    exists row. split; [apply size_t_in_range; exact Hrow|].
    apply existsb_exists. exists col.
    split; [apply size_t_in_range; lia|]. apply faceIntersectsEdge_iff, H.
Qed.

Lemma columnEdgeIntersects_iff (face : BrushFace) (grid : PatchGrid) :
  (0 < pointRowCount grid)%N ->
  columnEdgeIntersects face grid = true
  <-> exists p0 p1, columnAdjacent grid p0 p1 /\ segmentIntersectsFace face p0 p1.
Proof.
  intros Hr. unfold columnEdgeIntersects, columnAdjacent.
  rewrite size_t_decr_pos by exact Hr. rewrite existsb_exists. split.
  - intros [col [Hcol H]]. apply existsb_exists in H as [row [Hrow H]].
    apply size_t_in_range in Hrow, Hcol. apply faceIntersectsEdge_iff in H.
    eexists _, _. split; [|exact H].
    exists row, col. repeat split; lia.
  - intros [p0 [p1 [[row [col [Hrow [Hcol [-> ->]]]]] H]]].
    exists col. split; [apply size_t_in_range; exact Hcol|].
    apply existsb_exists. exists row.
    split; [apply size_t_in_range; lia|]. apply faceIntersectsEdge_iff, H.
Qed.

Lemma containsSamplePoint_iff (brush : Brush) (grid : PatchGrid) :
  existsb (fun point => Brush_containsPoint brush (position point)) (points grid)
  = true <-> containsSamplePoint brush grid.
Proof. apply existsb_exists. Qed.

(** C2. Take a brush and a patch grid with at least one row and one
    column of sample points, as every grid with sample points has (on a
    grid with an empty dimension the unsigned [count - 1u] of the loops
    wraps).  [intersectsPatch] is false when the bounds of the brush and
    of the grid do not overlap; otherwise it is true when the brush
    contains a sample point of the grid; otherwise it is true exactly when
    some row-adjacent or column-adjacent pair of sample points, taken as a
    segment, meets some face of the brush at a ray parameter in [[0, 1]],
    and false when no such pair and face exist. *)
Theorem intersectsPatch_cases (brush : Brush) (grid : PatchGrid) :
  (0 < pointRowCount grid)%N ->
  (0 < pointColumnCount grid)%N ->
  (vm.bbox3_intersects (Brush_bounds brush) (bounds grid) = false ->
     intersectsPatch brush grid = false)
  /\ (vm.bbox3_intersects (Brush_bounds brush) (bounds grid) = true ->
      (containsSamplePoint brush grid -> intersectsPatch brush grid = true)
      /\ (~ containsSamplePoint brush grid ->
          (intersectsPatch brush grid = true
           <-> gridEdgeIntersectsFace brush grid)
          /\ (~ gridEdgeIntersectsFace brush grid ->
              intersectsPatch brush grid = false))).
Proof.
  intros Hr Hc. unfold intersectsPatch. split.
  - intros ->. reflexivity.
  - intros ->. cbn [negb]. split.
    + intros H. apply containsSamplePoint_iff in H. rewrite H. reflexivity.
    + intros H.
      destruct (existsb _ (points grid)) eqn:E;
        [exfalso; apply H, containsSamplePoint_iff, E|].
      assert (Hiff : existsb (fun face => rowEdgeIntersects face grid
                                          || columnEdgeIntersects face grid)
                             (Brush_faces brush) = true
                     <-> gridEdgeIntersectsFace brush grid).
      { rewrite existsb_exists. unfold gridEdgeIntersectsFace. split.
        - intros [face [Hin Hor]]. apply orb_true_iff in Hor as [Hor|Hor].
          + apply rowEdgeIntersects_iff in Hor as [p0 [p1 [Ha Hs]]]; [|exact Hc].
            exists face, p0, p1.
            split; [exact Hin|split; [left; exact Ha|exact Hs]].
          + apply columnEdgeIntersects_iff in Hor as [p0 [p1 [Ha Hs]]]; [|exact Hr].
            exists face, p0, p1.
            split; [exact Hin|split; [right; exact Ha|exact Hs]].
        - intros [face [p0 [p1 [Hin [[Ha|Ha] Hs]]]]]; exists face;
            (split; [exact Hin|]); apply orb_true_iff.
          + left. apply rowEdgeIntersects_iff; [exact Hc|].
            exists p0, p1. split; assumption.
          + right. apply columnEdgeIntersects_iff; [exact Hr|].
            exists p0, p1. split; assumption. }
      split; [exact Hiff|].
      intros Hno. destruct (existsb _ (Brush_faces brush)); [|reflexivity].
      exfalso. apply Hno, Hiff. reflexivity.
Qed.

(* ================================================================== *)
(** * BrushNode: face selection *)
(* ================================================================== *)

Lemma selectedCount_le_length (faces : list BrushFace) :
  selectedCount faces <= length faces.
Proof. apply filter_length_le. Qed.

(** Replacing a stored face keeps the number of faces and moves the
    number of selected faces by the two flags involved. *)
Lemma replace_face_Some (faces : list BrushFace) :
  forall (i : nat) (old new : BrushFace),
    nth_error faces i = Some old ->
    exists faces',
      replace_face faces i new = Some faces'
      /\ length faces' = length faces
      /\ nth_error faces' i = Some new
      /\ selectedCount faces' + (if face_selected old then 1 else 0)
         = selectedCount faces + (if face_selected new then 1 else 0).
Proof.
  induction faces as [|g rest IH]; intros [|i] old new H; try discriminate.
  - injection H as ->. exists (new :: rest). unfold selectedCount. cbn.
    repeat split. destruct (face_selected old), (face_selected new); cbn; lia.
  - destruct (IH i old new H) as [faces' [Hr [Hl [Hn Hc]]]].
    exists (g :: faces'). cbn. rewrite Hr. cbn. repeat split; try congruence.
    unfold selectedCount in *. cbn. destruct (face_selected g); cbn; lia.
Qed.

(** The rescan of [updateSelectedFaceCount] counts the selected faces. *)
Lemma rescan_counts (faces : list BrushFace) :
  forall start : N,
    (start + N.of_nat (length faces) < size_t.modulus)%N ->
    fold_left (fun count face => if face_selected face then size_t.incr count
                                 else count) faces start
    = (start + N.of_nat (selectedCount faces))%N.
Proof.
  induction faces as [|f rest IH]; intros start Hs.
  - unfold selectedCount. cbn [fold_left filter length]. lia.
  - cbn [fold_left]. cbn [length] in Hs. unfold selectedCount. cbn [filter].
    destruct (face_selected f).
    + rewrite size_t_incr_small by lia. rewrite IH by lia.
      unfold selectedCount. cbn [length]. lia.
    + rewrite IH by lia. reflexivity.
Qed.

(** [setBrush] brings the counter in sync with the flags of the new
    brush, whatever the counter was. *)
Lemma setBrush_in_sync (brush : Brush) (n : BrushNode) :
  (N.of_nat (length (Brush_faces brush)) < size_t.modulus)%N ->
  counterInSync (snd (setBrush brush n))
  /\ m_brush (snd (setBrush brush n)) = brush
  /\ fst (setBrush brush n) = m_brush n.
Proof.
  intros H. unfold counterInSync, setBrush, updateSelectedFaceCount.
  cbn [fst snd m_brush m_selectedFaceCount].
  rewrite rescan_counts by lia. repeat split.
Qed.

Lemma clearSelectedFaces_none_selected (faces : list BrushFace) :
  filter face_selected
         (map (fun face => if face_selected face then BrushFace_deselect face
                           else face) faces) = [].
Proof.
  induction faces as [|f rest IH]; [reflexivity|].
  cbn. destruct (face_selected f) eqn:E; cbn; [|rewrite E]; exact IH.
Qed.

(** One call that follows the protocol keeps the counter in sync. *)
Lemma selectionCall_in_sync (c : SelectionCall) (n : BrushNode) :
  (N.of_nat (length (Brush_faces (m_brush n))) < size_t.modulus)%N ->
  counterInSync n ->
  followsProtocol c n = true ->
  exists n',
    selectionCall c n = Some n'
    /\ counterInSync n'
    /\ length (Brush_faces (m_brush n')) = length (Brush_faces (m_brush n)).
Proof.
  intros Hlen Hsync Hp. unfold counterInSync in *.
  destruct c as [i|i]; cbn [followsProtocol selectionCall] in Hp |- *;
    unfold selectFace, deselectFace;
    destruct (Brush_face (m_brush n) i) as [face|] eqn:Hf; try discriminate;
    unfold Brush_face in Hf.
  - destruct (replace_face_Some _ _ _ (BrushFace_select face) Hf)
      as [faces' [-> [Hl [_ Hc]]]].
    eexists. split; [reflexivity|].
    cbn [m_brush m_selectedFaceCount Brush_faces]. split; [|exact Hl].
    apply negb_true_iff in Hp. rewrite Hp in Hc.
    cbn [BrushFace_select face_selected] in Hc.
    pose proof (selectedCount_le_length faces').
    rewrite size_t_incr_small; rewrite Hsync; lia.
  - destruct (replace_face_Some _ _ _ (BrushFace_deselect face) Hf)
      as [faces' [-> [Hl [_ Hc]]]].
    eexists. split; [reflexivity|].
    cbn [m_brush m_selectedFaceCount Brush_faces]. split; [|exact Hl].
    rewrite Hp in Hc. cbn [BrushFace_deselect face_selected] in Hc.
    rewrite size_t_decr_pos; rewrite Hsync; lia.
Qed.

(** A sequence of calls that follows the protocol runs to its end and
    keeps the counter in sync. *)
Lemma selectionCalls_in_sync (cs : list SelectionCall) :
  forall n : BrushNode,
    (N.of_nat (length (Brush_faces (m_brush n))) < size_t.modulus)%N ->
    counterInSync n ->
    allFollowProtocol cs n = true ->
    exists n', selectionCalls cs n = Some n' /\ counterInSync n'.
Proof.
  induction cs as [|c rest IH]; intros n Hlen Hsync Hp.
  - exists n. split; [reflexivity|exact Hsync].
  - cbn in Hp. apply andb_true_iff in Hp as [Hc Hrest].
    destruct (selectionCall_in_sync c n Hlen Hsync Hc) as [n1 [E [Hs1 Hl1]]].
    cbn. rewrite E in Hrest |- *. apply IH; [rewrite Hl1; exact Hlen|exact Hs1|exact Hrest].
Qed.

Lemma hasSelectedFaces_in_sync (n : BrushNode) :
  counterInSync n ->
  (hasSelectedFaces n = true <-> selectedCount (Brush_faces (m_brush n)) <> 0).
Proof.
  unfold counterInSync, hasSelectedFaces. intros ->.
  rewrite N.ltb_lt. lia.
Qed.

(** [selectFace] and [deselectFace] step the counter; they do not look
    at the other faces. *)
Lemma selectFace_increments (i : nat) (n n' : BrushNode) :
  selectFace i n = Some n' ->
  m_selectedFaceCount n' = size_t.incr (m_selectedFaceCount n).
Proof.
  unfold selectFace. destruct (Brush_face _ _); [|discriminate].
  destruct (replace_face _ _ _); [|discriminate]. intros [= <-]. reflexivity.
Qed.

Lemma deselectFace_decrements (i : nat) (n n' : BrushNode) :
  deselectFace i n = Some n' ->
  m_selectedFaceCount n' = size_t.decr (m_selectedFaceCount n).
Proof.
  unfold deselectFace. destruct (Brush_face _ _); [|discriminate].
  destruct (replace_face _ _ _); [|discriminate]. intros [= <-]. reflexivity.
Qed.

(** C5, as amended.  Take a [BrushNode] whose counter agrees with the
    selection flags of its faces (as it does after construction and after
    [setBrush]), and a sequence of [selectFace]/[deselectFace] calls in
    which every [selectFace] names a face that is not selected and every
    [deselectFace] a face that is.  Then the sequence runs to its end, the
    counter still agrees with the flags, and [hasSelectedFaces()], which
    reads the counter alone, is true if and only if the number of faces
    whose selection flag is set is not zero.  Replacing the brush by
    [setBrush] rescans the faces of the new brush and leaves the counter in
    agreement with their flags. *)
Theorem hasSelectedFaces_iff_selected_faces
  (n : BrushNode) (cs : list SelectionCall) :
  (N.of_nat (length (Brush_faces (m_brush n))) < size_t.modulus)%N ->
  counterInSync n ->
  allFollowProtocol cs n = true ->
  exists n',
    selectionCalls cs n = Some n'
    /\ counterInSync n'
    /\ hasSelectedFaces n' = (0 <? m_selectedFaceCount n')%N
    /\ (hasSelectedFaces n' = true
        <-> selectedCount (Brush_faces (m_brush n')) <> 0)
    /\ (forall brush : Brush,
          (N.of_nat (length (Brush_faces brush)) < size_t.modulus)%N ->
          counterInSync (snd (setBrush brush n'))
          /\ m_brush (snd (setBrush brush n')) = brush).
Proof.
  intros Hlen Hsync Hp.
  destruct (selectionCalls_in_sync cs n Hlen Hsync Hp) as [n' [E Hs]].
  exists n'. split; [exact E|]. split; [exact Hs|]. split; [reflexivity|].
  split; [apply hasSelectedFaces_in_sync, Hs|].
  intros brush Hb. destruct (setBrush_in_sync brush n' Hb) as [H1 [H2 _]].
  split; assumption.
Qed.

(** C10. A freshly constructed [BrushNode] has the selection flag of every
    face cleared and a selected-face count of zero, so that
    [hasSelectedFaces()] is false, whatever the selection flags of the brush
    it was given; the faces are otherwise those of that brush, in the same
    order. *)
Theorem newBrushNode_has_no_selected_faces (brush : Brush) :
  let n := newBrushNode brush in
  Forall (fun face => face_selected face = false) (Brush_faces (m_brush n))
  /\ selectedCount (Brush_faces (m_brush n)) = 0
  /\ m_selectedFaceCount n = 0%N
  /\ hasSelectedFaces n = false
  /\ map face_vertices (Brush_faces (m_brush n))
     = map face_vertices (Brush_faces brush)
  /\ Brush_bounds (m_brush n) = Brush_bounds brush.
Proof.
  cbv zeta. unfold newBrushNode, clearSelectedFaces, hasSelectedFaces. cbn.
  repeat split.
  - apply Forall_forall. intros f Hf. apply in_map_iff in Hf as [g [<- _]].
    destruct (face_selected g) eqn:E; [reflexivity|exact E].
  - unfold selectedCount. rewrite clearSelectedFaces_none_selected. reflexivity.
  - rewrite map_map. apply map_ext. intros f.
    destruct (face_selected f); reflexivity.
Qed.

(* ================================================================== *)
(** * BrushNode: [contains] and [intersects] *)
(* ================================================================== *)

(** C4. For every [BrushNode] and every world or layer node, whatever its
    descendants, [contains] and [intersects] are false. *)
Theorem contains_intersects_world_layer
  (this : BrushNode) (children : list Node) :
  contains this (NWorld children) = false
  /\ intersects this (NWorld children) = false
  /\ contains this (NLayer children) = false
  /\ intersects this (NLayer children) = false.
Proof. repeat split. Qed.

(** All points of a non-empty list satisfy [p]: some point does. *)
Lemma forallb_existsb {A} (p : A -> bool) (l : list A) :
  l <> [] -> forallb p l = true -> existsb p l = true.
Proof.
  destruct l as [|a l]; [congruence|]. intros _ H. cbn in *.
  apply andb_true_iff in H as [-> _]. reflexivity.
Qed.

Lemma containsPatch_intersectsPatch (brush : Brush) (g : PatchGrid) :
  vm.bbox3_valid (bounds g) = true -> points g <> [] ->
  containsPatch brush g = true -> intersectsPatch brush g = true.
Proof.
  unfold containsPatch, intersectsPatch. intros Hv Hne.
  destruct (vm.bbox3_contains _ _) eqn:Hc; cbn [negb]; [|discriminate].
  rewrite (bbox3_contains_intersects _ _ Hv Hc). cbn [negb]. intros Hall.
  rewrite (forallb_existsb _ _ Hne Hall). reflexivity.
Qed.

Lemma Brush_contains_intersects_bbox (this : Brush) (other : vm.bbox3) :
  vm.bbox3_valid other = true ->
  Brush_contains_bbox this other = true ->
  Brush_intersects_bbox this other = true.
Proof.
  unfold Brush_contains_bbox, Brush_intersects_bbox. intros Hv H.
  apply andb_true_iff in H as [Hc Hall].
  rewrite (bbox3_contains_intersects _ _ Hv Hc).
  rewrite (forallb_existsb _ (vm.bbox3_vertices other)); [reflexivity| |exact Hall].
  discriminate.
Qed.

Lemma Brush_contains_intersects_brush (this other : Brush) :
  vm.bbox3_valid (Brush_bounds other) = true ->
  Brush_vertices other <> [] ->
  Brush_contains_brush this other = true ->
  Brush_intersects_brush this other = true.
Proof.
  unfold Brush_contains_brush, Brush_intersects_brush. intros Hv Hne H.
  apply andb_true_iff in H as [Hc Hall].
  rewrite (bbox3_contains_intersects _ _ Hv Hc).
  rewrite (forallb_existsb _ _ Hne Hall). reflexivity.
Qed.

(** C9, as amended.  For every [BrushNode] and every node of any of the
    six classes that satisfies the invariants of the data model
    ([wellFormedRegion]: bounds that are a valid box, a brush with a
    vertex, a patch grid with a sample point), if [contains] is true then
    [intersects] is true. *)
Theorem contains_implies_intersects (this : BrushNode) (node : Node) :
  wellFormedRegion node ->
  contains this node = true ->
  intersects this node = true.
Proof.
  destruct node as [cs|cs|g|e|b|p]; cbn [wellFormedRegion contains intersects].
  - discriminate.
  - discriminate.
  - apply Brush_contains_intersects_bbox.
  - apply Brush_contains_intersects_bbox.
  - intros [Hv Hne]. apply Brush_contains_intersects_brush; assumption.
  - intros [Hv Hne]. apply containsPatch_intersectsPatch; assumption.
Qed.

(* ================================================================== *)
(** * EntityNode: the bounds cache *)
(* ================================================================== *)

(** After [validateBounds] the slot is filled. *)
Lemma validateBounds_filled (n : EntityNode) :
  exists c, m_cachedBounds (validateBounds n) = Some c.
Proof.
  unfold validateBounds. destruct (m_cachedBounds n) as [c|] eqn:E.
  - exists c. exact E.
  - eexists. reflexivity.
Qed.

Lemma validateBounds_idempotent (n : EntityNode) :
  validateBounds (validateBounds n) = validateBounds n.
Proof.
  unfold validateBounds at 1.
  destruct (validateBounds_filled n) as [c ->]. reflexivity.
Qed.

(** [validateBounds] keeps a coherent cache coherent, and touches neither
    the entity nor the children. *)
Lemma validateBounds_coherent (n : EntityNode) :
  cacheCoherent n ->
  m_cachedBounds (validateBounds n)
  = Some (computeBounds (m_entity n) (m_children n))
  /\ m_entity (validateBounds n) = m_entity n
  /\ m_children (validateBounds n) = m_children n.
Proof.
  unfold cacheCoherent, validateBounds. intros H.
  destruct (m_cachedBounds n) as [c|] eqn:E.
  - rewrite E, (H c eq_refl). repeat split.
  - repeat split.
Qed.

(** C3. The cached-bounds slot of an [EntityNode] is all that says whether
    its bounds are up to date.  [invalidateBounds] empties the slot.  Each
    of [modelBounds], [logicalBounds] and [physicalBounds] validates the
    cache and reads the slot that results.  On an empty slot, as after an
    invalidation, the read gives the bounds computed from scratch from the
    entity (model, definition, origin) and the children the node has at
    that time, and stores them.  On a filled slot the read gives the
    stored bounds and leaves the node as it is, whatever the entity and
    the children are: nothing is computed again. *)
Theorem bounds_cache_slot_is_the_dirty_flag :
  (forall n : EntityNode,
      m_cachedBounds (invalidateBounds n) = None
      /\ m_entity (invalidateBounds n) = m_entity n
      /\ m_children (invalidateBounds n) = m_children n)
  /\ (forall n : EntityNode,
         EntityNode_modelBounds n
         = (modelBounds (cachedBounds (validateBounds n)), validateBounds n)
         /\ EntityNode_logicalBounds n
            = (logicalBounds (cachedBounds (validateBounds n)), validateBounds n)
         /\ EntityNode_physicalBounds n
            = (physicalBounds (cachedBounds (validateBounds n)), validateBounds n))
  /\ (forall (entity : Entity) (children : list Node),
         let fresh := computeBounds entity children in
         let dirty := mkEntityNode entity children None in
         let clean := mkEntityNode entity children (Some fresh) in
         EntityNode_modelBounds dirty = (modelBounds fresh, clean)
         /\ EntityNode_logicalBounds dirty = (logicalBounds fresh, clean)
         /\ EntityNode_physicalBounds dirty = (physicalBounds fresh, clean))
  /\ (forall (entity : Entity) (children : list Node) (stored : CachedBounds),
         let n := mkEntityNode entity children (Some stored) in
         EntityNode_modelBounds n = (modelBounds stored, n)
         /\ EntityNode_logicalBounds n = (logicalBounds stored, n)
         /\ EntityNode_physicalBounds n = (physicalBounds stored, n)).
Proof.
  split; [|split; [|split]].
  - intros n. repeat split.
  - intros n. repeat split.
  - intros entity children. cbv zeta. repeat split.
  - intros entity children stored. cbv zeta. repeat split.
Qed.

(** The first read after an invalidation sees the entity and children of
    the node as they are at the time of the read. *)
Lemma read_after_invalidateBounds (n : EntityNode) :
  fst (EntityNode_physicalBounds (invalidateBounds n))
  = physicalBounds (computeBounds (m_entity n) (m_children n))
  /\ fst (EntityNode_logicalBounds (invalidateBounds n))
     = logicalBounds (computeBounds (m_entity n) (m_children n))
  /\ fst (EntityNode_modelBounds (invalidateBounds n))
     = modelBounds (computeBounds (m_entity n) (m_children n)).
Proof. repeat split. Qed.

(** C7. For a childless [EntityNode] without a visual model whose entity
    has no point-entity definition, the logical bounds are the box from
    [-8,-8,-8] to [8,8,8] moved by the origin of the entity, and the
    physical bounds are the logical bounds. *)
Theorem default_bounds_of_plain_entity (n : EntityNode) :
  cacheCoherent n ->
  hasChildren n = false ->
  Entity_model (m_entity n) = None ->
  (forall definitionBounds,
      Entity_definition (m_entity n)
      <> Some (PointEntityDefinition definitionBounds)) ->
  let o := Entity_origin (m_entity n) in
  fst (EntityNode_logicalBounds n)
  = vm.mkBBox3
      (vm.mkVec3 (-8 + vm.x o)%float (-8 + vm.y o)%float (-8 + vm.z o)%float)
      (vm.mkVec3 (8 + vm.x o)%float (8 + vm.y o)%float (8 + vm.z o)%float)
  /\ fst (EntityNode_logicalBounds n)
     = vm.bbox3_translate DefaultBounds o
  /\ fst (EntityNode_physicalBounds n) = fst (EntityNode_logicalBounds n).
Proof.
  intros Hcoh Hchildless Hmodel Hdef. cbv zeta.
  unfold EntityNode_logicalBounds, EntityNode_physicalBounds, cachedBounds.
  cbn [fst]. destruct (validateBounds_coherent n Hcoh) as [-> _].
  unfold hasChildren in Hchildless.
  unfold computeBounds. rewrite Hmodel.
  destruct (m_children n); [|discriminate].
  assert (Hd : match Entity_definition (m_entity n) with
               | Some (PointEntityDefinition b) => b
               | _ => DefaultBounds
               end = DefaultBounds).
  { destruct (Entity_definition (m_entity n)) as [[b|]|]; try reflexivity.
    exfalso. exact (Hdef b eq_refl). }
  rewrite Hd. cbn. repeat split.
Qed.

(* ================================================================== *)
(** * EntityNode: children *)
(* ================================================================== *)

(** C8. [doCanAddChild] of an [EntityNode] is true exactly for brush and
    patch nodes.  The hooks run after a child was added or removed
    recompute the point-entity flag, "point entity iff no children", from
    the children the node has then, and empty the bounds cache; so does
    adding or removing a child, and the next read of the physical bounds
    computes them from the new children. *)
Theorem entity_children_brush_or_patch :
  (forall (n : EntityNode) (child : Node),
      doCanAddChild n child = true
      <-> (exists brush, child = NBrush brush)
          \/ (exists patch, child = NPatch patch))
  /\ (forall (n : EntityNode) (children : list Node),
         doCanAddChild n (NWorld children) = false
         /\ doCanAddChild n (NLayer children) = false
         /\ doCanAddChild n (NGroup children) = false)
  /\ (forall n entity : EntityNode, doCanAddChild n (NEntity entity) = false)
  /\ (forall n : EntityNode,
         Entity_pointEntity (m_entity (doChildWasAdded n)) = negb (hasChildren n)
         /\ m_cachedBounds (doChildWasAdded n) = None
         /\ m_children (doChildWasAdded n) = m_children n
         /\ Entity_pointEntity (m_entity (doChildWasRemoved n))
            = negb (hasChildren n)
         /\ m_cachedBounds (doChildWasRemoved n) = None
         /\ m_children (doChildWasRemoved n) = m_children n)
  /\ (forall (n : EntityNode) (child : Node),
         let n' := addChild n child in
         m_children n' = m_children n ++ [child]
         /\ Entity_pointEntity (m_entity n') = false
         /\ m_cachedBounds n' = None
         /\ fst (EntityNode_physicalBounds n')
            = physicalBounds (computeBounds (m_entity n') (m_children n')))
  /\ (forall (n : EntityNode) (index : nat),
         let n' := removeChild n index in
         m_children n'
         = firstn index (m_children n) ++ skipn (S index) (m_children n)
         /\ Entity_pointEntity (m_entity n') = negb (hasChildren n')
         /\ m_cachedBounds n' = None
         /\ fst (EntityNode_physicalBounds n')
            = physicalBounds (computeBounds (m_entity n') (m_children n'))).
Proof.
  split; [|split; [|split; [|split; [|split]]]].
  - intros n child. split.
    + destruct child; cbn [doCanAddChild]; try discriminate; intros _;
        [left|right]; eexists; reflexivity.
    + intros [[b ->]|[q ->]]; reflexivity.
  - intros n children. repeat split.
  - intros n entity. reflexivity.
  - intros n. repeat split.
  - intros n child. cbv zeta. repeat split.
    cbn. unfold hasChildren. cbn. destruct (m_children n); reflexivity.
  - intros n index. cbv zeta. repeat split.
Qed.

(* ================================================================== *)
(** * EntityNode: picking *)
(* ================================================================== *)

Lemma validateBounds_entity (n : EntityNode) :
  m_entity (validateBounds n) = m_entity n
  /\ m_children (validateBounds n) = m_children n.
Proof.
  unfold validateBounds. destruct (m_cachedBounds n); split; reflexivity.
Qed.

Ltac pick_cases :=
  repeat match goal with
         | |- context [vm.is_nan ?d] => destruct (vm.is_nan d) eqn:?
         | |- context [bbox3_containsPoint ?b ?p] =>
             destruct (bbox3_containsPoint b p) eqn:?
         | |- context [invert ?m] => destruct (invert m) as [[|] ?] eqn:?
         | |- context [Entity_model ?e] => destruct (Entity_model e) eqn:?
         end.

(** C6. [doPick] of a childless, visible [EntityNode] tests the ray
    against the logical bounds of the entity first: the ray hits them when
    it starts outside of them and its intersection with them is defined.
    On such a hit one hit record is added and nothing else is called.  The
    visual model is tested only when the bounds test gives no hit, with the
    ray taken into model space by the inverse of the model transformation.
    Without a model, and with a transformation that is not invertible, the
    model is not tested and the pick result is returned as it was; a model
    test without an intersection also leaves it as it was.  In every case
    the function returns a pick result that holds at most one more hit. *)
Theorem entity_pick_bounds_then_model
  (editorContext : EditorContext) (n : EntityNode) (ray : vm.ray3)
  (pickResult : PickResult) :
  hasChildren n = false ->
  visible editorContext (NEntity n) = true ->
  let myBounds := fst (EntityNode_logicalBounds n) in
  let n' := validateBounds n in
  let entity := m_entity n in
  let transform := Entity_modelTransformation entity in
  let picked := EntityNode_doPick editorContext n ray pickResult in
  snd (value picked) = n'
  /\ (boundsHit myBounds ray = true ->
      let distance := intersect_ray_bbox ray myBounds in
      picked
      = ((addHit pickResult
            (mkHit EntityHitType distance (point_at_distance ray distance)
                   (EntityTarget n')), n'),
         [CallRayBBox]))
  /\ (boundsHit myBounds ray = false ->
      match Entity_model entity with
      | None =>
          fst (value picked) = pickResult
          /\ modelRayCalls (trace picked) = 0
      | Some model =>
          if fst (invert transform) then
            let distance := frame_intersect model (modelSpaceRay entity ray) in
            modelRayCalls (trace picked) = 1
            /\ fst (value picked)
               = if vm.is_nan distance then pickResult
                 else addHit pickResult
                        (mkHit EntityHitType distance
                           (mat4x4_mul_vec3 transform
                              (point_at_distance_f (modelSpaceRay entity ray)
                                                   distance))
                           (EntityTarget n'))
          else
            fst (value picked) = pickResult
            /\ modelRayCalls (trace picked) = 0
      end)
  /\ (modelRayCalls (trace picked) <> 0 -> boundsHit myBounds ray = false)
  /\ (fst (value picked) = pickResult
      \/ exists h, fst (value picked) = addHit pickResult h).
Proof.
  intros Hchildless Hvisible. cbv zeta.
  unfold EntityNode_doPick. rewrite Hchildless, Hvisible. cbn [negb andb].
  unfold EntityNode_logicalBounds, boundsHit, pickModel, modelSpaceRay.
  cbn [fst snd]. destruct (validateBounds_entity n) as [-> _].
  pick_cases.
  all: repeat first
         [ progress pick_cases
         | progress (rewrite ?bind_call, ?bind_ret)
         | progress cbn
         | match goal with
           | H : invert _ = _ |- _ => rewrite H
           | H : vm.is_nan _ = _ |- _ => rewrite H
           end ].
  all: repeat split; try reflexivity; try discriminate; try congruence.
  all: try (left; reflexivity); try (right; eexists; reflexivity).
  all: cbn [fst snd] in *; congruence.
Qed.

(* ================================================================== *)
(** * BrushNode: more on face selection *)
(* ================================================================== *)

Lemma replace_face_None (faces : list BrushFace) :
  forall (i : nat) (new : BrushFace),
    replace_face faces i new = None <-> length faces <= i.
Proof.
  induction faces as [|g rest IH]; intros i new.
  - cbn. split; [intros _; lia|reflexivity].
  - destruct i as [|i]; cbn.
    + split; [discriminate|lia].
    + specialize (IH i new). destruct (replace_face rest i new); cbn.
      * split; [discriminate|]. intros H.
        assert (Hl : length rest <= i) by lia. apply IH in Hl. discriminate.
      * split; [|reflexivity]. intros _.
        assert (Hl : length rest <= i) by (apply IH; reflexivity). lia.
Qed.

(** Replacing the face at [i] leaves the faces at other positions. *)
Lemma replace_face_other (faces : list BrushFace) :
  forall (i j : nat) (new : BrushFace) (faces' : list BrushFace),
    replace_face faces i new = Some faces' -> i <> j ->
    nth_error faces' j = nth_error faces j.
Proof.
  induction faces as [|g rest IH]; intros i j new faces' H Hij.
  - discriminate.
  - destruct i as [|i]; cbn in H.
    + injection H as <-. destruct j; [congruence|reflexivity].
    + destruct (replace_face rest i new) as [r|] eqn:E; [|discriminate].
      injection H as <-. destruct j as [|j]; [reflexivity|].
      cbn. apply (IH i j new r E). congruence.
Qed.

(** One call runs exactly when its index is in range; it keeps the number
    of faces, rewrites the flag of the face it names and leaves the other
    faces and the bounds. *)
Lemma selectionCall_effect (c : SelectionCall) (n : BrushNode) :
  (indexOf c < Brush_faceCount (m_brush n) ->
   exists n' face,
     selectionCall c n = Some n'
     /\ nth_error (Brush_faces (m_brush n)) (indexOf c) = Some face
     /\ nth_error (Brush_faces (m_brush n')) (indexOf c)
        = Some (mkBrushFace (face_vertices face)
                  match c with SelectFace _ => true | DeselectFace _ => false end)
     /\ (forall j, indexOf c <> j ->
           nth_error (Brush_faces (m_brush n')) j
           = nth_error (Brush_faces (m_brush n)) j)
     /\ length (Brush_faces (m_brush n')) = length (Brush_faces (m_brush n))
     /\ Brush_bounds (m_brush n') = Brush_bounds (m_brush n)
     /\ m_selectedFaceCount n'
        = match c with
          | SelectFace _ => size_t.incr (m_selectedFaceCount n)
          | DeselectFace _ => size_t.decr (m_selectedFaceCount n)
          end)
  /\ (Brush_faceCount (m_brush n) <= indexOf c -> selectionCall c n = None).
Proof.
  unfold Brush_faceCount. split.
  - intros Hi.
    destruct (nth_error (Brush_faces (m_brush n)) (indexOf c)) as [face|] eqn:Hf.
    2:{ apply nth_error_None in Hf. lia. }
    destruct c as [i|i]; cbn [indexOf selectionCall] in *;
      unfold selectFace, deselectFace, Brush_face; rewrite Hf.
    + destruct (replace_face_Some _ _ _ (BrushFace_select face) Hf)
        as [faces' [E [Hl [Hn _]]]].
      rewrite E. eexists _, face. split; [reflexivity|].
      cbn [m_brush Brush_faces Brush_bounds m_selectedFaceCount].
      repeat split; try assumption.
      intros j Hj. apply (replace_face_other _ _ _ _ _ E Hj).
    + destruct (replace_face_Some _ _ _ (BrushFace_deselect face) Hf)
        as [faces' [E [Hl [Hn _]]]].
      rewrite E. eexists _, face. split; [reflexivity|].
      cbn [m_brush Brush_faces Brush_bounds m_selectedFaceCount].
      repeat split; try assumption.
      intros j Hj. apply (replace_face_other _ _ _ _ _ E Hj).
  - intros Hi. apply nth_error_None in Hi.
    destruct c as [i|i]; cbn [indexOf selectionCall] in *;
      unfold selectFace, deselectFace, Brush_face; rewrite Hi; reflexivity.
Qed.

(** X1. A sequence of [selectFace]/[deselectFace] calls runs to its end
    exactly when all its indices are in range; it then leaves the number
    of faces and the bounds of the brush as they were. *)
Theorem selectionCalls_run_iff_in_range (cs : list SelectionCall) :
  forall n : BrushNode,
    ((exists n', selectionCalls cs n = Some n')
     <-> inRange (Brush_faceCount (m_brush n)) cs)
    /\ (forall n', selectionCalls cs n = Some n' ->
          Brush_faceCount (m_brush n') = Brush_faceCount (m_brush n)
          /\ Brush_bounds (m_brush n') = Brush_bounds (m_brush n)).
Proof.
  unfold inRange. induction cs as [|c rest IH]; intros n.
  - cbn. split.
    + split; [constructor|]. intros _. exists n. reflexivity.
    + intros n' [= <-]. split; reflexivity.
  - cbn [selectionCalls].
    destruct (selectionCall_effect c n) as [Hin Hout].
    destruct (Nat.lt_ge_cases (indexOf c) (Brush_faceCount (m_brush n)))
      as [Hi|Hi].
    + destruct (Hin Hi) as [n1 [face [E [_ [_ [_ [Hl [Hb _]]]]]]]].
      rewrite E. destruct (IH n1) as [Hrun Hkeep].
      unfold Brush_faceCount in *. rewrite Hl in Hrun. split.
      * split.
        -- intros H. constructor; [exact Hi|]. apply Hrun, H.
        -- intros H. apply Hrun. inversion H; assumption.
      * intros n' H. destruct (Hkeep n' H) as [H1 H2]. split; congruence.
    + rewrite (Hout Hi). split.
      * split; [intros [n' H]; discriminate|].
        intros H. inversion H; subst. lia.
      * discriminate.
Qed.

(** X2. The counter counts calls, not faces: after a sequence that runs to
    its end, the counter is the counter before plus the number of
    [selectFace] calls minus the number of [deselectFace] calls, modulo
    [2^64], whatever faces the calls name. *)
Theorem selectedFaceCount_counts_calls (cs : list SelectionCall) :
  forall n n' : BrushNode,
    selectionCalls cs n = Some n' ->
    ((m_selectedFaceCount n' + N.of_nat (deselectCalls cs)) mod size_t.modulus
     = (m_selectedFaceCount n + N.of_nat (selectCalls cs)) mod size_t.modulus)%N.
Proof.
  assert (Hincr : forall a, ((size_t.incr a) mod size_t.modulus
                             = (a + 1) mod size_t.modulus)%N).
  { intros a. unfold size_t.incr. apply N.Div0.mod_mod. }
  assert (Hdecr : forall a, ((size_t.decr a + 1) mod size_t.modulus
                             = a mod size_t.modulus)%N).
  { intros a. unfold size_t.decr. destruct (N.eqb_spec a 0) as [->|Ha].
    - replace (size_t.modulus - 1 + 1)%N with (1 * size_t.modulus)%N
        by (unfold size_t.modulus; lia).
      rewrite N.Div0.mod_mul. reflexivity.
    - replace (a - 1 + 1)%N with a by lia. reflexivity. }
  unfold selectCalls, deselectCalls.
  induction cs as [|c rest IH]; intros n n' H.
  - injection H as <-. cbn. rewrite !N.add_0_r. reflexivity.
  - cbn [selectionCalls] in H.
    destruct (selectionCall c n) as [n1|] eqn:E; [|discriminate].
    specialize (IH n1 n' H).
    destruct c as [i|i]; cbn [selectionCall] in E; cbn [filter length].
    + apply selectFace_increments in E.
      rewrite IH, E.
      rewrite <- N.Div0.add_mod_idemp_l, Hincr, N.Div0.add_mod_idemp_l.
      f_equal. lia.
    + apply deselectFace_decrements in E.
      rewrite Nat2N.inj_succ, <- N.add_1_r, N.add_assoc.
      rewrite <- N.Div0.add_mod_idemp_l, IH, N.Div0.add_mod_idemp_l.
      rewrite E.
      replace (size_t.decr (m_selectedFaceCount n)
               + N.of_nat (length (filter
                   (fun c => match c with SelectFace _ => true | _ => false end)
                   rest)) + 1)%N
        with (size_t.decr (m_selectedFaceCount n) + 1
              + N.of_nat (length (filter
                   (fun c => match c with SelectFace _ => true | _ => false end)
                   rest)))%N by lia.
      rewrite <- N.Div0.add_mod_idemp_l, Hdecr, N.Div0.add_mod_idemp_l.
      reflexivity.
Qed.

(** X3. After a sequence of calls that runs to its end, every face has
    the vertices it had; its selection flag is the one set by the last
    call of the sequence that names the face, and the flag it had when no
    call names it. *)
Theorem selection_flag_follows_last_call (cs : list SelectionCall) :
  forall (n n' : BrushNode) (i : nat) (face : BrushFace),
    selectionCalls cs n = Some n' ->
    nth_error (Brush_faces (m_brush n)) i = Some face ->
    nth_error (Brush_faces (m_brush n')) i
    = Some (mkBrushFace (face_vertices face)
              match lastCallOn i cs with
              | Some flag => flag
              | None => face_selected face
              end).
Proof.
  induction cs as [|c rest IH]; intros n n' i face H Hf.
  - injection H as <-. cbn. rewrite Hf. destruct face; reflexivity.
  - cbn [selectionCalls] in H.
    destruct (selectionCall c n) as [n1|] eqn:E; [|discriminate].
    destruct (selectionCall_effect c n) as [Hin Hout].
    destruct (Nat.lt_ge_cases (indexOf c) (Brush_faceCount (m_brush n)))
      as [Hi|Hi]; [|rewrite (Hout Hi) in E; discriminate].
    destruct (Hin Hi) as [n1' [f [E' [Hf0 [Hf1 [Hother _]]]]]].
    rewrite E in E'. injection E' as <-.
    cbn [lastCallOn]. destruct (Nat.eqb_spec (indexOf c) i) as [<-|Hne].
    + rewrite Hf in Hf0. injection Hf0 as <-.
      rewrite (IH n1 n' (indexOf c) _ H Hf1). cbn [face_vertices face_selected].
      destruct (lastCallOn (indexOf c) rest); reflexivity.
    + rewrite (IH n1 n' i face H); [|rewrite (Hother i Hne); exact Hf].
      destruct (lastCallOn i rest); reflexivity.
Qed.

(** X4. Selecting a face that is not selected and deselecting it again
    gives the node back, counter included, as long as the counter was
    below its maximum. *)
Theorem selectFace_deselectFace_round_trip
  (i : nat) (n : BrushNode) (face : BrushFace) :
  nth_error (Brush_faces (m_brush n)) i = Some face ->
  face_selected face = false ->
  (m_selectedFaceCount n + 1 < size_t.modulus)%N ->
  exists n1,
    selectFace i n = Some n1
    /\ hasSelectedFaces n1 = true
    /\ deselectFace i n1 = Some n.
Proof.
  intros Hf Hsel Hc. unfold selectFace, deselectFace, Brush_face. rewrite Hf.
  destruct (replace_face_Some _ _ _ (BrushFace_select face) Hf)
    as [faces1 [E1 [_ [Hn1 _]]]].
  rewrite E1. eexists. split; [reflexivity|].
  cbn [m_brush Brush_faces Brush_bounds m_selectedFaceCount].
  split.
  { unfold hasSelectedFaces. cbn [m_selectedFaceCount].
    rewrite size_t_incr_small by exact Hc. apply N.ltb_lt. lia. }
  rewrite Hn1.
  assert (Hback : replace_face faces1 i
                    (BrushFace_deselect (BrushFace_select face))
                  = Some (Brush_faces (m_brush n))).
  { clear Hn1 Hc. revert i faces1 Hf E1.
    induction (Brush_faces (m_brush n)) as [|g rest IH];
      intros [|i] faces1 Hf E1; try discriminate.
    - cbn in Hf, E1. injection Hf as ->. injection E1 as <-. cbn.
      destruct face as [vs sel]. cbn in Hsel. subst sel. reflexivity.
    - cbn in Hf, E1.
      destruct (replace_face rest i (BrushFace_select face)) as [r|] eqn:E;
        [|discriminate].
      injection E1 as <-. cbn. rewrite (IH i r Hf E). reflexivity. }
  rewrite Hback. rewrite size_t_incr_small by exact Hc.
  rewrite size_t_decr_pos by lia.
  replace (m_selectedFaceCount n + 1 - 1)%N with (m_selectedFaceCount n) by lia.
  destruct n as [[faces bb] count]. reflexivity.
Qed.

(** X5. [setBrush] hands back the brush it replaces.  Swapping that brush
    in again restores the brush of the node, and restores the whole node
    when its counter agreed with the flags of its faces. *)
Theorem setBrush_swap_back (brush : Brush) (n : BrushNode) :
  (N.of_nat (length (Brush_faces (m_brush n))) < size_t.modulus)%N ->
  let first := setBrush brush n in
  let second := setBrush (fst first) (snd first) in
  fst first = m_brush n
  /\ m_brush (snd first) = brush
  /\ fst second = brush
  /\ m_brush (snd second) = m_brush n
  /\ counterInSync (snd second)
  /\ (counterInSync n -> snd second = n).
Proof.
  intros Hlen. cbv zeta.
  destruct (setBrush_in_sync (fst (setBrush brush n)) (snd (setBrush brush n)))
    as [Hs [Hb Hold]]; [exact Hlen|].
  repeat split; try assumption.
  intros Hsync. unfold counterInSync in Hs, Hsync.
  destruct (snd (setBrush (fst (setBrush brush n)) (snd (setBrush brush n))))
    as [b2 c2] eqn:E.
  cbn [m_brush m_selectedFaceCount] in Hs, Hb. cbn [fst setBrush] in Hb.
  destruct n as [b0 c0]. cbn [m_brush m_selectedFaceCount] in *.
  subst b2. rewrite Hs, Hsync. reflexivity.
Qed.

Lemma selectedCount_nonzero (faces : list BrushFace) :
  selectedCount faces <> 0
  <-> exists face, In face faces /\ face_selected face = true.
Proof.
  unfold selectedCount. split.
  - intros H. destruct (filter face_selected faces) as [|f rest] eqn:E;
      [cbn in H; congruence|].
    exists f. apply filter_In. rewrite E. left. reflexivity.
  - intros [face Hf] H. apply filter_In in Hf.
    apply length_zero_iff_nil in H. rewrite H in Hf. exact Hf.
Qed.

(** X18. [setBrush] takes the new brush as it is, selection flags
    included, and counts them: afterwards [hasSelectedFaces()] is true
    exactly when a face of the new brush is selected, whatever the counter
    was before.  The constructor, given the same brush, clears the
    flags. *)
Theorem setBrush_keeps_selection_flags (brush : Brush) (n : BrushNode) :
  (N.of_nat (length (Brush_faces brush)) < size_t.modulus)%N ->
  m_brush (snd (setBrush brush n)) = brush
  /\ (hasSelectedFaces (snd (setBrush brush n)) = true
      <-> exists face, In face (Brush_faces brush) /\ face_selected face = true)
  /\ hasSelectedFaces (newBrushNode brush) = false.
Proof.
  intros Hlen. destruct (setBrush_in_sync brush n Hlen) as [Hs [Hb _]].
  split; [exact Hb|]. split; [|reflexivity].
  rewrite (hasSelectedFaces_in_sync _ Hs), Hb. apply selectedCount_nonzero.
Qed.

(* ================================================================== *)
(** * BrushNode: the entity of a brush, tags, picking *)
(* ================================================================== *)

(** X6. [BrushNode::entity()] gives the nearest ancestor that is a world
    or an entity node: every ancestor below it is a layer, a group, a
    brush or a patch.  It gives nothing exactly when no ancestor is a
    world or an entity, in particular for a node without parent. *)
Theorem BrushNode_entity_nearest_ancestor (ancestors : list Node) :
  match BrushNode_entity ancestors with
  | Some found =>
      isEntityNodeBase found = true
      /\ exists below above,
           ancestors = below ++ found :: above
           /\ Forall (fun a => isEntityNodeBase a = false) below
  | None => Forall (fun a => isEntityNodeBase a = false) ancestors
  end.
Proof.
  induction ancestors as [|a rest IH]; [constructor|].
  destruct a as [cs|cs|cs|e|b|q]; cbn [BrushNode_entity];
    try (split; [reflexivity|]; exists [], rest; split; [reflexivity|constructor]);
    (destruct (BrushNode_entity rest) as [found|];
     [ destruct IH as [Hf [below [above [-> Hb]]]];
       split; [exact Hf|];
       eexists (_ :: below), above; split; [reflexivity|];
       constructor; [reflexivity|exact Hb]
     | constructor; [reflexivity|exact IH] ]).
Qed.

(** A bit of the tags shared by all faces is a bit of the start value and
    of the tag mask of every face. *)
Lemma shared_tags_testbit (faces : list BrushFace) :
  forall (start : N) (i : N),
    N.testbit
      (fold_left (fun shared face => N.land shared (BrushFace_tagMask face))
                 faces start) i
    = N.testbit start i
      && forallb (fun face => N.testbit (BrushFace_tagMask face) i) faces.
Proof.
  induction faces as [|f rest IH]; intros start i.
  - cbn. rewrite andb_true_r. reflexivity.
  - cbn [fold_left forallb]. rewrite IH, N.land_spec, andb_assoc. reflexivity.
Qed.

Lemma N_nonzero_has_bit (a : N) :
  negb (a =? 0)%N = true <-> exists i, N.testbit a i = true.
Proof.
  rewrite negb_true_iff, N.eqb_neq. split.
  - intros H. exists (N.log2 a). apply N.bit_log2, H.
  - intros [i Hi] ->. rewrite N.bits_0 in Hi. discriminate.
Qed.

Lemma allFacesHaveAnyTagInMask_bits (n : BrushNode) (tagMask : N) :
  (allFacesHaveAnyTagInMask n tagMask = true ->
   exists i : N,
     (i < tagBits)%N
     /\ N.testbit tagMask i = true
     /\ forall face, In face (Brush_faces (m_brush n)) ->
                     N.testbit (BrushFace_tagMask face) i = true)
  /\ ((exists i : N,
         (i < tagBits)%N
         /\ N.testbit tagMask i = true
         /\ forall face, In face (Brush_faces (m_brush n)) ->
                         N.testbit (BrushFace_tagMask face) i = true) ->
      allFacesHaveAnyTagInMask n tagMask = true).
Proof.
  unfold allFacesHaveAnyTagInMask, AnyType. cbv zeta.
  rewrite N_nonzero_has_bit. split.
  - intros [i Hi]. rewrite N.land_spec, shared_tags_testbit in Hi.
    apply andb_true_iff in Hi as [Hi Hm].
    apply andb_true_iff in Hi as [Ho Hall].
    exists i. split; [|split; [exact Hm|]].
    + destruct (N.lt_ge_cases i tagBits) as [Hlt|Hge]; [exact Hlt|].
      rewrite N.ones_spec_high in Ho by exact Hge. discriminate.
    + intros face Hin. rewrite forallb_forall in Hall. apply Hall, Hin.
  - intros [i [Hi [Hm Hall]]]. exists i.
    rewrite N.land_spec, shared_tags_testbit, Hm.
    rewrite N.ones_spec_low by exact Hi.
    rewrite andb_true_r. cbn [andb]. apply forallb_forall. exact Hall.
Qed.

(** X7. [allFacesHaveAnyTagInMask(tagMask)] is true exactly when one bit
    of [tagMask] is set in the tag mask of every face: it asks for a tag
    that all faces share, not for each face to have some tag of the mask.
    On a brush without faces it is true for every mask of the tag type
    but zero. *)
Theorem allFacesHaveAnyTagInMask_shared_bit (n : BrushNode) (tagMask : N) :
  (allFacesHaveAnyTagInMask n tagMask = true
   <-> exists i : N,
         (i < tagBits)%N
         /\ N.testbit tagMask i = true
         /\ forall face, In face (Brush_faces (m_brush n)) ->
                         N.testbit (BrushFace_tagMask face) i = true)
  /\ (Brush_faces (m_brush n) = [] ->
      (tagMask < 2 ^ tagBits)%N ->
      allFacesHaveAnyTagInMask n tagMask = negb (tagMask =? 0)%N).
Proof.
  split.
  - destruct (allFacesHaveAnyTagInMask_bits n tagMask) as [H1 H2].
    split; assumption.
  - unfold allFacesHaveAnyTagInMask, AnyType. cbv zeta.
    intros -> Hm. cbn [fold_left]. f_equal. f_equal.
    rewrite N.land_comm, N.land_ones. apply N.mod_small, Hm.
Qed.

(** X8. The answer of [allFacesHaveAnyTagInMask] does not depend on the
    order in which the faces are stored. *)
Theorem allFacesHaveAnyTagInMask_order_independent
  (n n' : BrushNode) (tagMask : N) :
  Permutation (Brush_faces (m_brush n)) (Brush_faces (m_brush n')) ->
  allFacesHaveAnyTagInMask n tagMask = allFacesHaveAnyTagInMask n' tagMask.
Proof.
  intros Hp.
  destruct (allFacesHaveAnyTagInMask_bits n tagMask) as [H1 H1'].
  destruct (allFacesHaveAnyTagInMask_bits n' tagMask) as [H2 H2'].
  apply Bool.eq_true_iff_eq. split; intros H.
  - destruct (H1 H) as [i [Hi [Hm Hall]]].
    apply H2'. exists i. repeat split; try assumption.
    intros face Hin. apply Hall.
    apply (Permutation_in _ (Permutation_sym Hp) Hin).
  - destruct (H2 H) as [i [Hi [Hm Hall]]].
    apply H1'. exists i. repeat split; try assumption.
    intros face Hin. apply Hall. apply (Permutation_in _ Hp Hin).
Qed.

Lemma bind_value_trace {A B} (m : Traced A) (k : A -> Traced B) :
  bind m k = (value (k (value m)), trace m ++ trace (k (value m))).
Proof. unfold bind, value, trace. destruct m as [a t]. cbn. destruct (k a); reflexivity. Qed.

(** What [findFaceHit] returns is a hit: a defined distance, and the
    intersection of the ray with the face stored at the index returned. *)
Lemma findFaceHit_sound (n : BrushNode) (ray : vm.ray3)
  (distance : vm.FloatType) (i : nat) :
  value (findFaceHit n ray) = Some (distance, i) ->
  vm.is_nan (intersect_ray_bbox ray (BrushNode_logicalBounds n)) = false
  /\ firstHitByFaceOrder (Brush_faces (m_brush n)) ray distance i.
Proof.
  unfold findFaceHit. rewrite bind_call. unfold value at 1. cbn [fst].
  destruct (vm.is_nan (intersect_ray_bbox ray (BrushNode_logicalBounds n)));
    cbn [negb]; [discriminate|].
  destruct (firstHit_or_none ray (Brush_faces (m_brush n))) as [[d [k H]]|H].
  - rewrite (findFaceHit_from_hit _ _ 0 _ _ H). cbn.
    intros [= <- <-]. split; [reflexivity|exact H].
  - rewrite (findFaceHit_from_miss _ _ 0 H). discriminate.
Qed.

(** X9. [BrushNode::doPick] on a node that is not visible returns the
    pick result as it is and calls no kernel.  On a visible node it makes
    the calls of [findFaceHit] and nothing else, never fails its [ensure],
    and adds a hit exactly when [findFaceHit] finds one: a brush hit for
    this node and the face found, at the point of the ray at the distance
    found.  That distance is defined, and it is the intersection of the
    ray with the face stored at the index of the hit. *)
Theorem BrushNode_doPick_adds_the_face_hit
  (editorContext : EditorContext) (n : BrushNode) (ray : vm.ray3)
  (pickResult : PickResult) :
  let picked := BrushNode_doPick editorContext n ray pickResult in
  (visible editorContext (NBrush n) = false ->
   picked = (Some pickResult, []))
  /\ (visible editorContext (NBrush n) = true ->
      trace picked = trace (findFaceHit n ray)
      /\ value picked
         = Some match value (findFaceHit n ray) with
                | Some (distance, faceIndex) =>
                    addHit pickResult
                      (mkHit BrushHitType distance
                             (point_at_distance ray distance)
                             (FaceHandle n faceIndex))
                | None => pickResult
                end)
  /\ (forall distance faceIndex,
         value (findFaceHit n ray) = Some (distance, faceIndex) ->
         vm.is_nan distance = false
         /\ faceIndex < Brush_faceCount (m_brush n)
         /\ exists face,
              Brush_face (m_brush n) faceIndex = Some face
              /\ BrushFace_intersectWithRay face ray = distance).
Proof.
  cbv zeta. unfold BrushNode_doPick. split; [|split].
  - intros ->. reflexivity.
  - intros ->. rewrite bind_value_trace.
    destruct (value (findFaceHit n ray)) as [[d i]|] eqn:E.
    + destruct (findFaceHit_sound n ray d i E) as [_ [_ [Hn _]]].
      rewrite Hn. unfold value, trace, ret. cbn [fst snd].
      rewrite app_nil_r. split; reflexivity.
    + unfold value, trace, ret. cbn [fst snd].
      rewrite app_nil_r. split; reflexivity.
  - intros d i E.
    destruct (findFaceHit_sound n ray d i E) as [_ [[face [Hf Hd]] [Hn _]]].
    split; [exact Hn|]. split.
    + unfold Brush_faceCount. apply nth_error_Some. congruence.
    + exists face. split; assumption.
Qed.

(* ================================================================== *)
(** * Patch grids: edge cases *)
(* ================================================================== *)

(** X15. [containsPatch] is true exactly when the bounds of the brush
    contain the bounds of the grid and the brush contains every sample
    point.  For a brush without faces [intersectsPatch] comes down to
    the overlap of the bounds and a sample point in the brush.  On a grid
    without rows, columns and sample points [intersectsPatch] is false,
    while [containsPatch] is the containment of the bounds alone. *)
Theorem patch_tests_on_empty_inputs :
  (forall (brush : Brush) (g : PatchGrid),
      containsPatch brush g = true
      <-> vm.bbox3_contains (Brush_bounds brush) (bounds g) = true
          /\ forall point, In point (points g) ->
                           Brush_containsPoint brush (position point) = true)
  /\ (forall (brush : Brush) (g : PatchGrid),
         Brush_faces brush = [] ->
         intersectsPatch brush g
         = vm.bbox3_intersects (Brush_bounds brush) (bounds g)
           && existsb (fun point => Brush_containsPoint brush (position point))
                      (points g))
  /\ (forall (brush : Brush) (emptyBounds : vm.bbox3),
         intersectsPatch brush (mkPatchGrid 0 0 [] emptyBounds) = false
         /\ containsPatch brush (mkPatchGrid 0 0 [] emptyBounds)
            = vm.bbox3_contains (Brush_bounds brush) emptyBounds).
Proof.
  split; [|split].
  - intros brush g. unfold containsPatch.
    destruct (vm.bbox3_contains (Brush_bounds brush) (bounds g)); cbn [negb].
    + rewrite forallb_forall. split; [intros H; split; [reflexivity|exact H]|].
      intros [_ H]. exact H.
    + split; [discriminate|intros [H _]; discriminate].
  - intros brush g Hf. unfold intersectsPatch. rewrite Hf.
    destruct (vm.bbox3_intersects (Brush_bounds brush) (bounds g)); cbn [negb andb];
      [|reflexivity].
    destruct (existsb _ (points g)); reflexivity.
  - intros brush bb. unfold intersectsPatch, containsPatch.
    cbn [points bounds forallb existsb].
    destruct (vm.bbox3_contains (Brush_bounds brush) bb); cbn [negb];
      (split; [|reflexivity]);
      (destruct (vm.bbox3_intersects (Brush_bounds brush) bb); cbn [negb];
       [|reflexivity]);
      (induction (Brush_faces brush) as [|f rest IH]; [reflexivity|]);
      cbn [existsb]; rewrite IH;
      unfold rowEdgeIntersects, columnEdgeIntersects;
      cbn [pointRowCount pointColumnCount];
      change (size_t.range 0) with (@nil N); reflexivity.
Qed.

(* ================================================================== *)
(** * EntityNode: more on the bounds cache, children and picking *)
(* ================================================================== *)

(** [doPick] leaves the node as it is or validates its bounds. *)
Lemma EntityNode_doPick_node
  (editorContext : EditorContext) (n : EntityNode) (ray : vm.ray3)
  (pickResult : PickResult) :
  snd (value (EntityNode_doPick editorContext n ray pickResult)) = n
  \/ snd (value (EntityNode_doPick editorContext n ray pickResult))
     = validateBounds n.
Proof.
  unfold EntityNode_doPick.
  destruct (negb (hasChildren n) && visible editorContext (NEntity n));
    [|left; reflexivity].
  right. unfold EntityNode_logicalBounds.
  destruct (bbox3_containsPoint _ _).
  - cbn [negb]. rewrite bind_value_trace. reflexivity.
  - cbn [negb]. rewrite bind_call.
    destruct (vm.is_nan _); cbn [negb]; [|reflexivity].
    rewrite bind_value_trace. reflexivity.
Qed.

Lemma validateBounds_keeps_coherent (n : EntityNode) :
  cacheCoherent n -> cacheCoherent (validateBounds n).
Proof.
  intros H c Hc. destruct (validateBounds_coherent n H) as [Hs [He Hch]].
  rewrite He, Hch. congruence.
Qed.

(** No call on an entity node leaves bounds in the cache that are not
    those of the entity and children of the node. *)
Lemma entityNodeCall_keeps_coherent (n : EntityNode) (c : EntityNodeCall) :
  cacheCoherent n -> cacheCoherent (entityNodeCall n c).
Proof.
  intros H.
  destruct c; cbn [entityNodeCall EntityNode_modelBounds
                   EntityNode_logicalBounds EntityNode_physicalBounds snd];
    try (intros c Hc; discriminate Hc);
    try (apply validateBounds_keeps_coherent, H).
  destruct (EntityNode_doPick_node editorContext n ray pickResult) as [-> | ->];
    [exact H|apply validateBounds_keeps_coherent, H].
Qed.

(** X10. The bounds of an entity node are never stale.  After any
    sequence of calls on a node made by the constructor (setting the model
    frame, adding and removing children, the hooks for changed properties
    and changed child bounds, invalidation, the three bounds reads and
    picking, in any order), the cache is empty or holds the bounds of the
    entity and children the node has then, and each of the three reads
    gives those bounds. *)
Theorem entity_bounds_never_stale (entity : Entity) (cs : list EntityNodeCall) :
  let n := entityNodeCalls (newEntityNode entity) cs in
  let fresh := computeBounds (m_entity n) (m_children n) in
  cacheCoherent n
  /\ fst (EntityNode_modelBounds n) = modelBounds fresh
  /\ fst (EntityNode_logicalBounds n) = logicalBounds fresh
  /\ fst (EntityNode_physicalBounds n) = physicalBounds fresh.
Proof.
  cbv zeta.
  assert (Hc : cacheCoherent (entityNodeCalls (newEntityNode entity) cs)).
  { unfold entityNodeCalls.
    assert (H0 : cacheCoherent (newEntityNode entity))
      by (intros c Hc; discriminate Hc).
    revert H0. generalize (newEntityNode entity).
    induction cs as [|c rest IH]; intros n H0; [exact H0|].
    cbn [fold_left]. apply IH, entityNodeCall_keeps_coherent, H0. }
  split; [exact Hc|].
  unfold EntityNode_modelBounds, EntityNode_logicalBounds,
    EntityNode_physicalBounds, cachedBounds. cbn [fst].
  destruct (validateBounds_coherent _ Hc) as [-> _]. repeat split.
Qed.

(** X11. One validation serves all reads.  After a first read of any of
    the three bounds, each further read gives the value it would have
    given on the node before and leaves the node as the first read left
    it. *)
Theorem bounds_reads_are_stable (n : EntityNode) :
  let n1 := validateBounds n in
  snd (EntityNode_modelBounds n) = n1
  /\ snd (EntityNode_logicalBounds n) = n1
  /\ snd (EntityNode_physicalBounds n) = n1
  /\ EntityNode_modelBounds n1 = (fst (EntityNode_modelBounds n), n1)
  /\ EntityNode_logicalBounds n1 = (fst (EntityNode_logicalBounds n), n1)
  /\ EntityNode_physicalBounds n1 = (fst (EntityNode_physicalBounds n), n1)
  /\ m_entity n1 = m_entity n
  /\ m_children n1 = m_children n.
Proof.
  cbv zeta.
  unfold EntityNode_modelBounds, EntityNode_logicalBounds,
    EntityNode_physicalBounds. cbn [fst snd].
  rewrite validateBounds_idempotent.
  destruct (validateBounds_entity n) as [He Hc].
  repeat split; assumption.
Qed.

(** X12. [EntityNode::doPick] on a node that has children or is not
    visible returns the pick result and the node as they are, without
    validating the bounds and without calling a kernel.  In every case the
    pick result returned is the one given with at most one hit added, and
    a hit added is an entity hit for this node with a defined distance. *)
Theorem EntityNode_doPick_hits_are_defined
  (editorContext : EditorContext) (n : EntityNode) (ray : vm.ray3)
  (pickResult : PickResult) :
  let picked := EntityNode_doPick editorContext n ray pickResult in
  (negb (hasChildren n) && visible editorContext (NEntity n) = false ->
   picked = ((pickResult, n), []))
  /\ exists added,
       fst (value picked) = pickResult ++ added
       /\ length added <= 1
       /\ Forall (fun h => hit_type h = EntityHitType
                           /\ vm.is_nan (hit_distance h) = false
                           /\ hit_target h = EntityTarget (validateBounds n))
                 added.
Proof.
  cbv zeta. unfold EntityNode_doPick.
  destruct (negb (hasChildren n) && visible editorContext (NEntity n)).
  2:{ split; [reflexivity|]. exists []. cbn. rewrite app_nil_r.
      repeat split; [lia|constructor]. }
  split; [discriminate|].
  unfold EntityNode_logicalBounds, pickModel, addHit.
  pick_cases.
  all: repeat first
         [ progress pick_cases
         | progress (rewrite ?bind_call, ?bind_ret)
         | progress cbn
         | match goal with
           | H : invert _ = _ |- _ => rewrite H
           | H : vm.is_nan _ = _ |- _ => rewrite H
           end ].
  all: first
         [ exists []; rewrite app_nil_r; split; [reflexivity|];
           split; [cbn; lia|constructor]
         | eexists [_]; split; [reflexivity|]; split; [cbn; lia|];
           constructor; [|constructor]; cbn [hit_type hit_distance hit_target];
           repeat split; assumption ].
Qed.


(** X14. Adding a child to an entity node and removing it again gives
    the node its children back and leaves the bounds cache empty; the
    point-entity flag then says whether the node has children, and the
    node is the one before with its cache emptied when its flag said so
    before. *)
Theorem addChild_removeChild_round_trip (n : EntityNode) (child : Node) :
  let n' := removeChild (addChild n child) (length (m_children n)) in
  m_children n' = m_children n
  /\ m_cachedBounds n' = None
  /\ Entity_pointEntity (m_entity n') = negb (hasChildren n)
  /\ (Entity_pointEntity (m_entity n) = negb (hasChildren n) ->
      n' = invalidateBounds n).
Proof.
  cbv zeta.
  assert (Hcs : firstn (length (m_children n)) (m_children n ++ [child])
                ++ skipn (S (length (m_children n))) (m_children n ++ [child])
                = m_children n).
  { rewrite firstn_app, Nat.sub_diag, firstn_all. cbn [firstn].
    rewrite app_nil_r, skipn_all2, app_nil_r; [reflexivity|].
    rewrite length_app. cbn. lia. }
  unfold removeChild, addChild, doChildWasRemoved, doChildWasAdded,
    nodePhysicalBoundsDidChange, doNodePhysicalBoundsDidChange,
    invalidateBounds, hasChildren.
  cbn [m_entity m_children m_cachedBounds]. rewrite Hcs.
  cbn [Entity_setPointEntity Entity_pointEntity Entity_model
       Entity_definition Entity_origin Entity_modelTransformation].
  repeat split.
  intros Hflag. unfold hasChildren in Hflag. rewrite <- Hflag.
  destruct n as [[m d o t p] cs c]. reflexivity.
Qed.

(* ================================================================== *)
(** * Validators *)
(* ================================================================== *)

Lemma containsChar_iff (c : Ascii.ascii) (s : String.string) :
  containsChar c s = true <-> exists i, String.get i s = Some c.
Proof.
  induction s as [|d rest IH]; cbn [containsChar].
  - split; [discriminate|]. intros [i H]. destruct i; discriminate.
  - destruct (Ascii.eqb_spec d c) as [->|Hne].
    + split; [|reflexivity]. intros _. exists 0. reflexivity.
    + rewrite IH. split.
      * intros [i H]. exists (S i). exact H.
      * intros [[|i] H]; cbn in H; [congruence|]. exists i. exact H.
Qed.

(** X16. [PropertyValueWithDoubleQuotationMarksValidator::doValidate]
    keeps the issues it is given and adds, in the order of the properties
    of the entity, one issue for each property whose value holds a double
    quotation mark at some position, with the key of that property; a key
    that occurs in several such properties is reported as often.  It adds
    nothing exactly when no value holds a double quotation mark. *)
Theorem quotation_marks_issue_per_property (node : Entity) (issues : list Issue) :
  let flagged :=
    filter (fun property => containsChar doubleQuote (property_value property))
           (Entity_properties node) in
  PropertyValueWithDoubleQuotationMarksValidator_doValidate node issues
  = issues
    ++ map (fun property =>
              PropertyValueWithDoubleQuotationMarksIssue
                node (property_key property)) flagged
  /\ (forall property,
         In property flagged
         <-> In property (Entity_properties node)
             /\ exists i, String.get i (property_value property)
                          = Some doubleQuote)
  /\ (PropertyValueWithDoubleQuotationMarksValidator_doValidate node issues
      = issues
      <-> forall property i,
            In property (Entity_properties node) ->
            String.get i (property_value property) <> Some doubleQuote).
Proof.
  cbv zeta. unfold PropertyValueWithDoubleQuotationMarksValidator_doValidate.
  assert (Hloop : forall properties start,
             fold_left
               (fun issues property =>
                  if containsChar doubleQuote (property_value property)
                  then issues
                       ++ [PropertyValueWithDoubleQuotationMarksIssue
                             node (property_key property)]
                  else issues) properties start
             = start
               ++ map (fun property =>
                         PropertyValueWithDoubleQuotationMarksIssue
                           node (property_key property))
                      (filter (fun property =>
                                 containsChar doubleQuote (property_value property))
                              properties)).
  { induction properties as [|p rest IH]; intros start.
    - cbn. rewrite app_nil_r. reflexivity.
    - cbn [fold_left filter]. rewrite IH.
      destruct (containsChar doubleQuote (property_value p)); [|reflexivity].
      cbn [map]. rewrite <- app_assoc. reflexivity. }
  cbv zeta. rewrite Hloop.
  assert (Hin : forall property,
             In property
                (filter (fun property =>
                           containsChar doubleQuote (property_value property))
                        (Entity_properties node))
             <-> In property (Entity_properties node)
                 /\ exists i, String.get i (property_value property)
                              = Some doubleQuote).
  { intros property. rewrite filter_In, containsChar_iff. reflexivity. }
  split; [reflexivity|]. split; [exact Hin|].
  split.
  - intros Heq property i Hp Hget.
    assert (Hnil : map (fun property =>
                          PropertyValueWithDoubleQuotationMarksIssue
                            node (property_key property))
                       (filter (fun property =>
                                  containsChar doubleQuote (property_value property))
                               (Entity_properties node)) = []).
    { apply (app_inv_head issues). rewrite app_nil_r. exact Heq. }
    apply map_eq_nil in Hnil.
    assert (Hf : In property
                    (filter (fun property =>
                               containsChar doubleQuote (property_value property))
                            (Entity_properties node)))
      by (apply Hin; split; [exact Hp|exists i; exact Hget]).
    rewrite Hnil in Hf. exact Hf.
  - intros Hnone.
    destruct (filter (fun property =>
                        containsChar doubleQuote (property_value property))
                     (Entity_properties node)) as [|p rest] eqn:E.
    + cbn. apply app_nil_r.
    + exfalso. assert (Hp : In p (p :: rest)) by (left; reflexivity).
      apply Hin in Hp as [Hp [i Hget]]. exact (Hnone p i Hp Hget).
Qed.

(** The loop of [MissingModValidator::doValidate] adds one issue per
    error. *)
Lemma missing_mod_issues (node : Entity) (errors : list (Path * String.string)) :
  forall issues : list Issue,
    fold_left
      (fun issues error =>
         issues ++ [MissingModIssue node (Path_asString (fst error)) (snd error)])
      errors issues
    = issues
      ++ map (fun error =>
                MissingModIssue node (Path_asString (fst error)) (snd error))
             errors.
Proof.
  induction errors as [|e rest IH]; intros issues.
  - cbn. rewrite app_nil_r. reflexivity.
  - cbn [fold_left map]. rewrite IH, <- app_assoc. reflexivity.
Qed.

(** X17. [MissingModValidator::doValidate] returns the issues and the
    validator as they are when the node is not the worldspawn, when the
    game has expired, and when the enabled mods are those of the last
    check.  For the worldspawn, with a live game and enabled mods that
    differ from those of the last check, it checks the search paths of
    the mods, adds one issue per error behind the issues it is given, in
    the order of the errors, and remembers the mods.  So a second
    validation of the same node right after a first adds nothing and
    changes nothing, also when the first reported missing mods; and a new
    validator reports nothing for a worldspawn without enabled mods. *)
Theorem missing_mods_reported_on_change_only
  (this : MissingModValidator Path) (node : Entity) (issues : list Issue) :
  let first := MissingModValidator_doValidate this node issues in
  (String.eqb (Entity_classname node) WorldspawnClassname = false ->
   first = (issues, this))
  /\ (m_game this = None -> first = (issues, this))
  /\ (forall game,
         String.eqb (Entity_classname node) WorldspawnClassname = true ->
         m_game this = Some game ->
         (extractEnabledMods game node = m_lastMods this ->
          first = (issues, this))
         /\ (extractEnabledMods game node <> m_lastMods this ->
             first
             = (issues
                ++ map (fun error =>
                          MissingModIssue node (Path_asString (fst error))
                                          (snd error))
                       (checkAdditionalSearchPaths
                          game (Path_asPaths (extractEnabledMods game node))),
                mkMissingModValidator (Some game)
                                      (extractEnabledMods game node))))
  /\ (forall issues',
         MissingModValidator_doValidate (snd first) node issues'
         = (issues', snd first))
  /\ m_game (snd first) = m_game this
  /\ (forall game,
         extractEnabledMods game node = [] ->
         MissingModValidator_doValidate
           (newMissingModValidator (Some game)) node issues
         = (issues, newMissingModValidator (Some game))).
Proof.
  cbv zeta. unfold MissingModValidator_doValidate.
  destruct (String.eqb (Entity_classname node) WorldspawnClassname) eqn:Hw;
    cbn [negb].
  2:{ cbn [fst snd]. split; [reflexivity|]. split; [reflexivity|].
      split; [intros game H; discriminate H|].
      split; [reflexivity|]. split; [reflexivity|].
      intros game _. reflexivity. }
  split; [discriminate|]. split; [|split; [|split; [|split]]].
  - intros ->. reflexivity.
  - intros game _ ->. split.
    + intros He.
      destruct (list_eq_dec String.string_dec
                  (extractEnabledMods game node) (m_lastMods this));
        [reflexivity|contradiction].
    + intros Hne.
      destruct (list_eq_dec String.string_dec
                  (extractEnabledMods game node) (m_lastMods this));
        [contradiction|].
      rewrite missing_mod_issues. reflexivity.
  - intros issues'. destruct (m_game this) as [game|] eqn:Hg; cbn [snd].
    + destruct (list_eq_dec String.string_dec
                  (extractEnabledMods game node) (m_lastMods this)) as [He|Hne];
        cbn [snd].
      * rewrite Hg.
        destruct (list_eq_dec String.string_dec
                    (extractEnabledMods game node) (m_lastMods this));
          [reflexivity|contradiction].
      * cbn [m_game m_lastMods].
        destruct (list_eq_dec String.string_dec
                    (extractEnabledMods game node)
                    (extractEnabledMods game node)); [reflexivity|congruence].
    + rewrite Hg. reflexivity.
  - destruct (m_game this) as [game|] eqn:Hg; [|exact Hg].
    destruct (list_eq_dec _ _ _); [exact Hg|reflexivity].
  - intros game He. cbn [m_game newMissingModValidator m_lastMods]. rewrite He.
    destruct (list_eq_dec String.string_dec [] []); [reflexivity|congruence].
Qed.

End Kernels.

(* ================================================================== *)
(** * The sample scene, run *)
(* ================================================================== *)

(** The side [x = 10] of the sample cube is stored before the side
    [x = 0].  A ray along [+x] from [(-5, 5, 5)] meets the first at
    distance 15 and the second at distance 5: the pick returns the first
    by stored order, after testing that face alone. *)
Example findFaceHit_is_not_nearest_hit :
  map (fun face => Sample.intersectWithRay face Sample.rayThroughCube)
      (firstn 2 (Brush_faces Sample.cube))
  = [15%float; 5%float]
  /\ findFaceHit Sample.intersect_ray_bbox Sample.intersectWithRay
                 Sample.cubeNode Sample.rayThroughCube
     = (Some (15%float, 0), [CallRayBBox; CallFaceRay 0]).
Proof. split; vm_compute; reflexivity. Qed.

(** A ray that passes above the cube misses its bounds: no face is
    tested. *)
Example findFaceHit_bounds_miss :
  findFaceHit Sample.intersect_ray_bbox Sample.intersectWithRay
              Sample.cubeNode Sample.rayAboveCube
  = (None, [CallRayBBox]).
Proof. vm_compute. reflexivity. Qed.

(** A node made from a brush with a selected face has none selected. *)
Example newBrushNode_oneFace :
  selectedCount (Brush_faces Sample.oneFace) = 1
  /\ hasSelectedFaces (newBrushNode Sample.oneFace) = false.
Proof. split; reflexivity. Qed.

(** The four sample grids against the cube: a sample point inside; no
    sample point inside but an edge through the top face; overlapping
    bounds only; no overlap of the bounds. *)
Example intersectsPatch_samples :
  map (intersectsPatch Sample.intersectWithRay Sample.containsPoint
                       Sample.PatchGrid_point Sample.cube)
      [Sample.gridInside; Sample.gridThroughTop; Sample.gridBesideCorner;
       Sample.gridFarAway]
  = [true; true; false; false]
  /\ map (fun g => vm.bbox3_intersects (Brush_bounds Sample.cube) (bounds g))
         [Sample.gridInside; Sample.gridThroughTop; Sample.gridBesideCorner;
          Sample.gridFarAway]
     = [true; true; true; false]
  /\ map (containsPatch Sample.containsPoint Sample.cube)
         [Sample.gridInside; Sample.gridThroughTop; Sample.gridBesideCorner;
          Sample.gridFarAway]
     = [true; false; false; false].
Proof. repeat split; vm_compute; reflexivity. Qed.

(** A read on a filled slot gives what the slot holds, here bounds that
    are not those of the entity; after [invalidateBounds] the read gives
    the bounds of the entity. *)
Example stale_bounds_until_invalidated :
  fst (EntityNode_logicalBounds Sample.bbox3_transform Sample.bbox3_merge
         Sample.mergedBounds Sample.mergedBounds Sample.staleNode)
  = vm.bbox3_minmax 2%float
  /\ fst (EntityNode_logicalBounds Sample.bbox3_transform Sample.bbox3_merge
            Sample.mergedBounds Sample.mergedBounds
            (invalidateBounds Sample.staleNode))
     = vm.mkBBox3 (vm.mkVec3 92 (-8) (-8))%float (vm.mkVec3 108 8 8)%float.
Proof. split; vm_compute; reflexivity. Qed.

(** Picking the sample entities: a ray from outside hits the bounds at
    distance 92 and the model is not looked at; a ray from inside the
    bounds goes to the model, which is hit at distance 3 when the
    transformation is invertible and is not tested when it is not. *)
Example entity_pick_samples :
  let pick e r :=
    EntityNode_doPick
      Sample.intersect_ray_bbox Sample.point_at_distance
      Sample.bbox3_containsPoint Sample.bbox3_transform Sample.bbox3_merge
      Sample.invert Sample.ray3_transform Sample.ray3f
      Sample.point_at_distance Sample.mul_vec3
      Sample.mergedBounds Sample.mergedBounds
      Sample.everythingVisible (Sample.entityNode e) r [] in
  let distances (m : Traced (PickResult * EntityNode)) :=
    (map hit_distance (fst (value m)), trace m) in
  distances (pick (Sample.modelEntity Sample.identity) Sample.rayToEntity)
  = ([92%float], [CallRayBBox])
  /\ distances (pick (Sample.modelEntity Sample.identity) Sample.rayFromInside)
     = ([3%float], [CallInvert; CallModelRay])
  /\ distances (pick (Sample.modelEntity Sample.collapsed) Sample.rayFromInside)
     = ([], [CallInvert])
  /\ distances (pick Sample.plainEntity Sample.rayFromInside) = ([], []).
Proof. repeat split; vm_compute; reflexivity. Qed.

(** C5, as stated, fails.  On a freshly constructed node with one face,
    the calls [selectFace(0)], [selectFace(0)], [deselectFace(0)] have all
    their indices in range; after them no face is selected, the counter
    is 1 and [hasSelectedFaces()] is true. *)
Lemma selectFace_twice_leaves_counter_out_of_sync :
  inRange (Brush_faceCount (m_brush (newBrushNode Sample.oneFace)))
          [SelectFace 0; SelectFace 0; DeselectFace 0]
  /\ counterInSync (newBrushNode Sample.oneFace)
  /\ exists n',
       selectionCalls [SelectFace 0; SelectFace 0; DeselectFace 0]
                      (newBrushNode Sample.oneFace) = Some n'
       /\ selectedCount (Brush_faces (m_brush n')) = 0
       /\ m_selectedFaceCount n' = 1%N
       /\ hasSelectedFaces n' = true.
Proof.
  split; [repeat constructor|]. split; [reflexivity|].
  eexists. split; [vm_compute; reflexivity|]. repeat split.
Qed.

(** A single [deselectFace(0)] on the same node wraps the counter. *)
Example deselectFace_wraps_counter :
  exists n',
    deselectFace 0 (newBrushNode Sample.oneFace) = Some n'
    /\ selectedCount (Brush_faces (m_brush n')) = 0
    /\ m_selectedFaceCount n' = (2 ^ 64 - 1)%N
    /\ hasSelectedFaces n' = true.
Proof.
  eexists. split; [vm_compute; reflexivity|]. repeat split.
Qed.

(** ** Witnesses *)

Lemma hasSelectedFaces_iff_selected_faces_witness :
  (N.of_nat (length (Brush_faces (m_brush (newBrushNode Sample.oneFace))))
   < size_t.modulus)%N
  /\ counterInSync (newBrushNode Sample.oneFace)
  /\ allFollowProtocol [SelectFace 0; DeselectFace 0; SelectFace 0]
                       (newBrushNode Sample.oneFace) = true
  /\ exists n',
       selectionCalls [SelectFace 0; DeselectFace 0; SelectFace 0]
                      (newBrushNode Sample.oneFace) = Some n'
       /\ hasSelectedFaces n' = true.
Proof.
  assert (Hlen : (N.of_nat (length (Brush_faces
                    (m_brush (newBrushNode Sample.oneFace))))
                  < size_t.modulus)%N) by reflexivity.
  assert (Hsync : counterInSync (newBrushNode Sample.oneFace)) by reflexivity.
  assert (Hp : allFollowProtocol [SelectFace 0; DeselectFace 0; SelectFace 0]
                                 (newBrushNode Sample.oneFace) = true)
    by reflexivity.
  repeat (split; [assumption|]).
  destruct (hasSelectedFaces_iff_selected_faces
              (newBrushNode Sample.oneFace)
              [SelectFace 0; DeselectFace 0; SelectFace 0] Hlen Hsync Hp)
    as [n' [E [_ [_ [Hiff _]]]]].
  exists n'. split; [exact E|]. apply Hiff.
  vm_compute in E. injection E as <-. discriminate.
Defined.

Lemma intersectsPatch_cases_witness :
  (0 < pointRowCount Sample.gridThroughTop)%N
  /\ (0 < pointColumnCount Sample.gridThroughTop)%N
  /\ gridEdgeIntersectsFace Sample.intersectWithRay Sample.PatchGrid_point
                            Sample.cube Sample.gridThroughTop.
Proof.
  split; [reflexivity|]. split; [reflexivity|].
  destruct (intersectsPatch_cases
              Sample.intersectWithRay Sample.containsPoint
              Sample.PatchGrid_point Sample.cube Sample.gridThroughTop
              eq_refl eq_refl) as [_ H].
  assert (Hb : vm.bbox3_intersects (Brush_bounds Sample.cube)
                                   (bounds Sample.gridThroughTop) = true)
    by (vm_compute; reflexivity).
  destruct (H Hb) as [_ H'].
  assert (Hno : ~ containsSamplePoint Sample.containsPoint Sample.cube
                                      Sample.gridThroughTop).
  { intros [pt [Hin Hc]]. cbn in Hin.
    destruct Hin as [<-|[<-|[<-|[<-|[]]]]]; vm_compute in Hc; discriminate. }
  destruct (H' Hno) as [Hiff _]. apply Hiff. vm_compute. reflexivity.
Defined.

Lemma contains_implies_intersects_witness :
  wellFormedRegion Sample.bbox3_transform Sample.bbox3_merge
                   Sample.mergedBounds Sample.mergedBounds
                   Sample.GroupNode_logicalBounds
                   (NPatch (mkPatchNode Sample.gridInside))
  /\ contains Sample.bbox3_transform Sample.bbox3_merge Sample.containsPoint
              Sample.mergedBounds Sample.mergedBounds
              Sample.GroupNode_logicalBounds
              Sample.cubeNode (NPatch (mkPatchNode Sample.gridInside)) = true
  /\ intersects Sample.bbox3_containsPoint Sample.bbox3_transform
                Sample.bbox3_merge Sample.intersectWithRay
                Sample.containsPoint Sample.PatchGrid_point
                Sample.mergedBounds Sample.mergedBounds
                Sample.GroupNode_logicalBounds
                (@Sample.noEdgeCrossing Brush vm.bbox3)
                (@Sample.noEdgeCrossing Brush Brush)
                Sample.cubeNode (NPatch (mkPatchNode Sample.gridInside)) = true.
Proof.
  assert (Hwf : wellFormedRegion Sample.bbox3_transform Sample.bbox3_merge
                  Sample.mergedBounds Sample.mergedBounds
                  Sample.GroupNode_logicalBounds
                  (NPatch (mkPatchNode Sample.gridInside)))
    by (split; [vm_compute; reflexivity|discriminate]).
  assert (Hc : contains Sample.bbox3_transform Sample.bbox3_merge
                 Sample.containsPoint Sample.mergedBounds
                 Sample.mergedBounds Sample.GroupNode_logicalBounds
                 Sample.cubeNode (NPatch (mkPatchNode Sample.gridInside))
               = true)
    by (vm_compute; reflexivity).
  split; [exact Hwf|]. split; [exact Hc|].
  exact (contains_implies_intersects
           Sample.bbox3_containsPoint Sample.bbox3_transform
           Sample.bbox3_merge Sample.intersectWithRay Sample.containsPoint
           Sample.PatchGrid_point Sample.mergedBounds Sample.mergedBounds
           Sample.GroupNode_logicalBounds
           (@Sample.noEdgeCrossing Brush vm.bbox3)
           (@Sample.noEdgeCrossing Brush Brush)
           Sample.cubeNode (NPatch (mkPatchNode Sample.gridInside)) Hwf Hc).
Defined.

Lemma default_bounds_of_plain_entity_witness :
  cacheCoherent Sample.bbox3_transform Sample.bbox3_merge
                Sample.mergedBounds Sample.mergedBounds
                (Sample.entityNode Sample.plainEntity)
  /\ hasChildren (Sample.entityNode Sample.plainEntity) = false
  /\ Entity_model (m_entity (Sample.entityNode Sample.plainEntity)) = None
  /\ (forall definitionBounds,
         Entity_definition (m_entity (Sample.entityNode Sample.plainEntity))
         <> Some (PointEntityDefinition definitionBounds))
  /\ fst (EntityNode_logicalBounds
            Sample.bbox3_transform Sample.bbox3_merge
            Sample.mergedBounds Sample.mergedBounds
            (Sample.entityNode Sample.plainEntity))
     = vm.mkBBox3 (vm.mkVec3 92 (-8) (-8))%float (vm.mkVec3 108 8 8)%float
  /\ fst (EntityNode_physicalBounds
            Sample.bbox3_transform Sample.bbox3_merge
            Sample.mergedBounds Sample.mergedBounds
            (Sample.entityNode Sample.plainEntity))
     = vm.mkBBox3 (vm.mkVec3 92 (-8) (-8))%float (vm.mkVec3 108 8 8)%float.
Proof.
  assert (Hcoh : cacheCoherent Sample.bbox3_transform Sample.bbox3_merge
                   Sample.mergedBounds Sample.mergedBounds
                   (Sample.entityNode Sample.plainEntity))
    by (intros c H; discriminate H).
  assert (Hdef : forall definitionBounds,
             Entity_definition (m_entity (Sample.entityNode Sample.plainEntity))
             <> Some (PointEntityDefinition definitionBounds))
    by (intros b H; discriminate H).
  split; [exact Hcoh|]. split; [reflexivity|]. split; [reflexivity|].
  split; [exact Hdef|].
  destruct (default_bounds_of_plain_entity
              Sample.bbox3_transform Sample.bbox3_merge
              Sample.mergedBounds Sample.mergedBounds
              (Sample.entityNode Sample.plainEntity)
              Hcoh eq_refl eq_refl Hdef) as [Hl [_ Hp]].
  split; [exact Hl|]. rewrite Hp. exact Hl.
Defined.

Lemma entity_pick_bounds_then_model_witness :
  hasChildren (Sample.entityNode (Sample.modelEntity Sample.collapsed)) = false
  /\ visible Sample.everythingVisible
             (NEntity (Sample.entityNode (Sample.modelEntity Sample.collapsed)))
     = true
  /\ fst (value (EntityNode_doPick
                   Sample.intersect_ray_bbox Sample.point_at_distance
                   Sample.bbox3_containsPoint Sample.bbox3_transform
                   Sample.bbox3_merge Sample.invert Sample.ray3_transform
                   Sample.ray3f Sample.point_at_distance Sample.mul_vec3
                   Sample.mergedBounds Sample.mergedBounds
                   Sample.everythingVisible
                   (Sample.entityNode (Sample.modelEntity Sample.collapsed))
                   Sample.rayFromInside []))
     = [].
Proof.
  split; [reflexivity|]. split; [reflexivity|].
  destruct (entity_pick_bounds_then_model
              Sample.intersect_ray_bbox Sample.point_at_distance
              Sample.bbox3_containsPoint Sample.bbox3_transform
              Sample.bbox3_merge Sample.invert Sample.ray3_transform
              Sample.ray3f Sample.point_at_distance Sample.mul_vec3
              Sample.mergedBounds Sample.mergedBounds
              Sample.everythingVisible
              (Sample.entityNode (Sample.modelEntity Sample.collapsed))
              Sample.rayFromInside [] eq_refl eq_refl) as [_ [_ [H _]]].
  assert (Hb : boundsHit Sample.intersect_ray_bbox Sample.bbox3_containsPoint
                 (fst (EntityNode_logicalBounds
                         Sample.bbox3_transform Sample.bbox3_merge
                         Sample.mergedBounds Sample.mergedBounds
                         (Sample.entityNode (Sample.modelEntity Sample.collapsed))))
                 Sample.rayFromInside = false)
    by (vm_compute; reflexivity).
  exact (proj1 (H Hb)).
Defined.

(* ================================================================== *)
(** * More sample runs *)
(* ================================================================== *)

(** With the mask [3], the faces tagged [1] and [2] each have a tag of
    the mask but share none; the faces tagged [3] and [1] share the tag
    [1].  A brush without faces passes for every mask but zero. *)
Example allFacesHaveAnyTagInMask_samples :
  map (fun faces =>
         allFacesHaveAnyTagInMask Scene.tagBits Scene.tagMask
                                  (Scene.brushOf faces) 3)
      [ [Scene.tagged 1; Scene.tagged 2];
        [Scene.tagged 3; Scene.tagged 1];
        [] ]
  = [false; true; true]
  /\ allFacesHaveAnyTagInMask Scene.tagBits Scene.tagMask (Scene.brushOf []) 0
     = false.
Proof. split; vm_compute; reflexivity. Qed.

(** The sample entity has two properties with a double quotation mark in
    their value; their keys are reported in the order of the
    properties. *)
Example quotation_marks_sample :
  PropertyValueWithDoubleQuotationMarksValidator_doValidate
    Scene.properties Sample.plainEntity []
  = [ PropertyValueWithDoubleQuotationMarksIssue
        Sample.plainEntity Scene.messageKey;
      PropertyValueWithDoubleQuotationMarksIssue
        Sample.plainEntity Scene.wadKey ].
Proof. vm_compute. reflexivity. Qed.

(** The first validation of the sample worldspawn reports the mod without
    directory; the second reports nothing, although the mod is still
    enabled and still without directory. *)
Example missing_mod_sample :
  let validate v :=
    MissingModValidator_doValidate
      Scene.classname (Scene.classname Sample.plainEntity) String.string
      Scene.asPaths Scene.asString v Sample.plainEntity [] in
  let first := validate (newMissingModValidator (Some Scene.game)) in
  length (fst first) = 1
  /\ fst (validate (snd first)) = []
  /\ fst (validate (newMissingModValidator None)) = [].
Proof. repeat split; vm_compute; reflexivity. Qed.

(** A brush below a layer below the world belongs to the world; below an
    entity it belongs to that entity; without parent it has none. *)
Example BrushNode_entity_samples :
  BrushNode_entity [NLayer []; NWorld []] = Some (NWorld [])
  /\ BrushNode_entity
       [NEntity (Sample.entityNode Sample.plainEntity); NLayer []; NWorld []]
     = Some (NEntity (Sample.entityNode Sample.plainEntity))
  /\ BrushNode_entity [] = None
  /\ BrushNode_entity [NGroup []; NLayer []] = None.
Proof. repeat split. Qed.

(** C9, as stated, fails.  The patch grid [Scene.gridWithoutPoints] has
    no sample point and bounds inside the bounds of the sample cube.
    [containsPatch] finds the bounds contained and no sample point
    outside of the brush, so [contains] is true; [intersectsPatch] finds
    no sample point inside the brush and no edge to test, so [intersects]
    is false. *)
Lemma contained_grid_without_points_is_not_intersected :
  contains Sample.bbox3_transform Sample.bbox3_merge Sample.containsPoint
           Sample.mergedBounds Sample.mergedBounds
           Sample.GroupNode_logicalBounds
           Sample.cubeNode (NPatch (mkPatchNode Scene.gridWithoutPoints))
  = true
  /\ intersects Sample.bbox3_containsPoint Sample.bbox3_transform
                Sample.bbox3_merge Sample.intersectWithRay
                Sample.containsPoint Sample.PatchGrid_point
                Sample.mergedBounds Sample.mergedBounds
                Sample.GroupNode_logicalBounds
                (@Sample.noEdgeCrossing Brush vm.bbox3)
                (@Sample.noEdgeCrossing Brush Brush)
                Sample.cubeNode (NPatch (mkPatchNode Scene.gridWithoutPoints))
     = false.
Proof. split; vm_compute; reflexivity. Qed.

(** The other two conditions of [wellFormedRegion] are needed as well: a
    grid inside the cube whose bounds are not a valid box, and a brush
    without vertices, are contained in the cube and not intersected by
    it. *)
Example contained_degenerate_regions_are_not_intersected :
  map (fun node =>
         (contains Sample.bbox3_transform Sample.bbox3_merge
                   Sample.containsPoint Sample.mergedBounds
                   Sample.mergedBounds Sample.GroupNode_logicalBounds
                   Sample.cubeNode node,
          intersects Sample.bbox3_containsPoint Sample.bbox3_transform
                     Sample.bbox3_merge Sample.intersectWithRay
                     Sample.containsPoint Sample.PatchGrid_point
                     Sample.mergedBounds Sample.mergedBounds
                     Sample.GroupNode_logicalBounds
                     (@Sample.noEdgeCrossing Brush vm.bbox3)
                     (@Sample.noEdgeCrossing Brush Brush)
                     Sample.cubeNode node))
      [ NPatch (mkPatchNode Scene.gridWithInvertedBounds);
        NBrush Scene.brushWithoutFaces ]
  = [(true, false); (true, false)].
Proof. vm_compute. reflexivity. Qed.

(** ** Witnesses *)

Lemma selectedFaceCount_counts_calls_witness :
  exists n',
    selectionCalls [SelectFace 0; SelectFace 0; DeselectFace 0]
                   Scene.oneFaceNode = Some n'
    /\ ((m_selectedFaceCount n'
         + N.of_nat (deselectCalls [SelectFace 0; SelectFace 0; DeselectFace 0]))
        mod size_t.modulus
        = (m_selectedFaceCount Scene.oneFaceNode
           + N.of_nat (selectCalls [SelectFace 0; SelectFace 0; DeselectFace 0]))
          mod size_t.modulus)%N.
Proof.
  eexists. split; [vm_compute; reflexivity|].
  apply (selectedFaceCount_counts_calls
           [SelectFace 0; SelectFace 0; DeselectFace 0] Scene.oneFaceNode).
  vm_compute. reflexivity.
Defined.

Lemma selection_flag_follows_last_call_witness :
  exists n' face,
    selectionCalls [DeselectFace 0; SelectFace 0] Scene.oneFaceNode = Some n'
    /\ nth_error (Brush_faces (m_brush Scene.oneFaceNode)) 0 = Some face
    /\ nth_error (Brush_faces (m_brush n')) 0
       = Some (mkBrushFace (face_vertices face) true).
Proof.
  eexists. eexists. split; [vm_compute; reflexivity|].
  split; [vm_compute; reflexivity|].
  refine (selection_flag_follows_last_call
            [DeselectFace 0; SelectFace 0] Scene.oneFaceNode _ 0 _ _ _);
    vm_compute; reflexivity.
Defined.

Lemma selectFace_deselectFace_round_trip_witness :
  exists face,
    nth_error (Brush_faces (m_brush Scene.oneFaceNode)) 0 = Some face
    /\ face_selected face = false
    /\ (m_selectedFaceCount Scene.oneFaceNode + 1 < size_t.modulus)%N
    /\ exists n1,
         selectFace 0 Scene.oneFaceNode = Some n1
         /\ hasSelectedFaces n1 = true
         /\ deselectFace 0 n1 = Some Scene.oneFaceNode.
Proof.
  eexists. split; [vm_compute; reflexivity|].
  split; [reflexivity|]. split; [reflexivity|].
  refine (selectFace_deselectFace_round_trip 0 Scene.oneFaceNode _ _ _ _);
    vm_compute; reflexivity.
Defined.

Lemma setBrush_swap_back_witness :
  (N.of_nat (length (Brush_faces (m_brush Scene.oneFaceSelected)))
   < size_t.modulus)%N
  /\ counterInSync Scene.oneFaceSelected
  /\ snd (setBrush (fst (setBrush Sample.cube Scene.oneFaceSelected))
                   (snd (setBrush Sample.cube Scene.oneFaceSelected)))
     = Scene.oneFaceSelected.
Proof.
  assert (Hlen : (N.of_nat (length (Brush_faces (m_brush Scene.oneFaceSelected)))
                  < size_t.modulus)%N) by reflexivity.
  assert (Hsync : counterInSync Scene.oneFaceSelected) by reflexivity.
  split; [exact Hlen|]. split; [exact Hsync|].
  destruct (setBrush_swap_back Sample.cube Scene.oneFaceSelected Hlen)
    as [_ [_ [_ [_ [_ H]]]]].
  exact (H Hsync).
Defined.

Lemma allFacesHaveAnyTagInMask_order_independent_witness :
  Permutation (Brush_faces (m_brush Sample.cubeNode))
              (Brush_faces (m_brush Scene.reversedCube))
  /\ allFacesHaveAnyTagInMask Scene.tagBits Scene.tagMask Sample.cubeNode 4
     = allFacesHaveAnyTagInMask Scene.tagBits Scene.tagMask
                                Scene.reversedCube 4.
Proof.
  assert (Hp : Permutation (Brush_faces (m_brush Sample.cubeNode))
                           (Brush_faces (m_brush Scene.reversedCube)))
    by apply Permutation_rev.
  split; [exact Hp|].
  exact (allFacesHaveAnyTagInMask_order_independent
           Scene.tagBits Scene.tagMask Sample.cubeNode Scene.reversedCube 4 Hp).
Defined.

Lemma setBrush_keeps_selection_flags_witness :
  (N.of_nat (length (Brush_faces Sample.oneFace)) < size_t.modulus)%N
  /\ hasSelectedFaces (snd (setBrush Sample.oneFace Sample.cubeNode)) = true
  /\ hasSelectedFaces (newBrushNode Sample.oneFace) = false.
Proof.
  assert (Hlen : (N.of_nat (length (Brush_faces Sample.oneFace))
                  < size_t.modulus)%N) by reflexivity.
  split; [exact Hlen|].
  destruct (setBrush_keeps_selection_flags Sample.oneFace Sample.cubeNode Hlen)
    as [_ [Hiff Hnew]].
  split; [|exact Hnew].
  apply Hiff. eexists. split; [left; reflexivity|reflexivity].
Defined.

Lemma missing_mods_reported_on_change_only_witness :
  String.eqb (Scene.classname Sample.plainEntity)
             (Scene.classname Sample.plainEntity) = true
  /\ extractEnabledMods Scene.game Sample.plainEntity
     <> m_lastMods (newMissingModValidator (Some Scene.game))
  /\ MissingModValidator_doValidate
       Scene.classname (Scene.classname Sample.plainEntity) String.string
       Scene.asPaths Scene.asString
       (newMissingModValidator (Some Scene.game)) Sample.plainEntity []
     = ([Scene.missingModIssue Sample.plainEntity],
        mkMissingModValidator (Some Scene.game) Scene.enabledMods).
Proof.
  assert (Hw : String.eqb (Scene.classname Sample.plainEntity)
                          (Scene.classname Sample.plainEntity) = true)
    by reflexivity.
  assert (Hne : extractEnabledMods Scene.game Sample.plainEntity
                <> m_lastMods (newMissingModValidator (Some Scene.game)))
    by discriminate.
  split; [exact Hw|]. split; [exact Hne|].
  destruct (missing_mods_reported_on_change_only
              Scene.classname (Scene.classname Sample.plainEntity)
              String.string Scene.asPaths Scene.asString
              (newMissingModValidator (Some Scene.game)) Sample.plainEntity [])
    as [_ [_ [Hchanged _]]].
  destruct (Hchanged Scene.game Hw eq_refl) as [_ Hreport].
  rewrite (Hreport Hne). reflexivity.
Defined.
